(** * A shallow embedding of the SQL agent pipeline
    (src/src/agents/sql_agent/sql_agent.py).

    The LangGraph workflow is modelled as a machine whose configurations
    are a node name and the session [State]; every node returns a patch
    that the graph merges into the state (messages are appended by the
    [add_messages] reducer, every other key is overwritten).  The language
    model, the database and the vector store are external collaborators:
    their answers are the inputs of the node functions. *)

From Stdlib Require Import String Ascii ZArith Lia.
From stdpp Require Import base list gmap strings.

Open Scope string_scope.

(* ------------------------------------------------------------------ *)
(** ** Python string helpers *)

Definition nl : string := String (ascii_of_nat 10) EmptyString.

(** [s.startswith(p)] *)
Definition startswith (s p : string) : bool := String.prefix p s.

(** [len(s) > 2000], [s[:2000]] *)
Definition py_len (s : string) : nat := String.length s.
Definition py_take (n : nat) (s : string) : string := String.substring 0 n s.

(* ------------------------------------------------------------------ *)
(** ** The database executor (langchain's [SQLDatabase.run_no_throw]) *)

(** What the database does with a statement: rows, or an error whose
    text is the database's message. *)
Inductive db_outcome :=
| DbRows (rows : list (list string))
| DbFailure (msg : string).

(** [SQLDatabase.run] renders the rows as [str(list_of_tuples)], or the
    empty string when there is no row; [run_no_throw] turns a database
    exception [e] into [f"Error: {e}"].  A row is the list of its cells'
    [repr]s; a one-element tuple prints with a trailing comma. *)
Definition render_row (r : list string) : string :=
  match r with
  | [c] => "(" +:+ c +:+ ",)"
  | _ => "(" +:+ String.concat ", " r +:+ ")"
  end.

Definition run_no_throw (o : db_outcome) : string :=
  match o with
  | DbRows [] => ""
  | DbRows rs => "[" +:+ String.concat ", " (map render_row rs) +:+ "]"
  | DbFailure m => "Error: " +:+ m
  end.

Definition query_failed_banner : string :=
  "Error: Query failed. Please rewrite your query and try again."
  +:+ nl +:+ nl +:+ "Details:".

(** [db_query_tool] (lines 140-153). *)
Definition db_query_tool (o : db_outcome) : string :=
  let result := run_no_throw o in
  if startswith result "Error:" then query_failed_banner +:+ result
  else if Nat.ltb 2000 (py_len result) then py_take 2000 result +:+ "..."
  else result.

(* ------------------------------------------------------------------ *)
(** ** Messages and the session state *)

Record tool_call := mkToolCall {
  tc_name : string;
  tc_args : list (string * string);
  tc_id : string
}.

Inductive message :=
| HumanMessage (content : string)
| AIMessage (content : string) (tool_calls : list tool_call)
| ToolMessage (content : string) (tool_call_id : string).

#[global] Instance tool_call_eq_dec : EqDecision tool_call.
Proof. solve_decision. Defined.

#[global] Instance message_eq_dec : EqDecision message.
Proof. solve_decision. Defined.

Definition content (m : message) : string :=
  match m with
  | HumanMessage c | AIMessage c _ | ToolMessage c _ => c
  end.

(** [state["messages"][-1]]; [None] is Python's [IndexError]. *)
Definition last_message (ms : list message) : option message := last ms.

(** The fields of [class State(TypedDict)] that the pipeline reads or
    writes.  [sufficient_info] is absent until [sufficient_tables] runs. *)
Record State := mkState {
  question : string;
  messages : list message;
  information : string;
  sufficient_info : option bool;
  query : string;
  max_retries : Z;
  chart_type : string
}.

(** The dictionary a node returns. *)
Record patch := mkPatch {
  p_messages : list message;
  p_question : option string;
  p_information : option string;
  p_sufficient_info : option bool;
  p_query : option string;
  p_max_retries : option Z;
  p_chart_type : option string
}.

Definition msgs_patch (ms : list message) : patch :=
  mkPatch ms None None None None None None.

Definition upd {A} (o : option A) (old : A) : A :=
  match o with Some v => v | None => old end.

(** LangGraph's merge: [add_messages] appends (the new messages carry
    fresh ids), the other channels take the last value written. *)
Definition apply_patch (st : State) (p : patch) : State :=
  mkState (upd (p_question p) (question st))
          (messages st ++ p_messages p)
          (upd (p_information p) (information st))
          (match p_sufficient_info p with
           | Some b => Some b | None => sufficient_info st end)
          (upd (p_query p) (query st))
          (upd (p_max_retries p) (max_retries st))
          (upd (p_chart_type p) (chart_type st)).

(** Python exceptions that escape a node or an edge function. *)
Inductive exn :=
| KeyError (key : Z)
| KeyErrorStr (key : string)
| IndexError
| AttributeError
| BranchError (label : string).

Inductive res (A : Type) :=
| Ok (a : A)
| Raise (e : exn).
Arguments Ok {A} a.
Arguments Raise {A} e.

(* ------------------------------------------------------------------ *)
(** ** Tool nodes *)

(** The result of invoking one tool: its return value, or the [repr] of
    the exception it raised. *)
Inductive tool_outcome :=
| ToolOk (output : string)
| ToolRaise (error_repr : string).

(** [handle_tool_error] (lines 117-128). *)
Definition handle_tool_error (error_repr : string) (tcs : list tool_call)
  : list message :=
  map (fun tc => ToolMessage ("Error: " +:+ error_repr +:+ nl
                              +:+ " please fix your mistakes.") (tc_id tc)) tcs.

Fixpoint first_raise (outs : list tool_outcome) : option string :=
  match outs with
  | [] => None
  | ToolRaise e :: _ => Some e
  | ToolOk _ :: outs' => first_raise outs'
  end.

Definition tool_output (o : tool_outcome) : string :=
  match o with ToolOk s => s | ToolRaise e => e end.

(** [create_tool_node_with_fallback] (lines 131-137): [ToolNode] runs
    every tool call of the last AI message; an exception escaping it is
    caught by the fallback [handle_tool_error], which answers every
    tool call with an [Error:] message.  Without an AI message to read
    tool calls from, the fallback itself fails on [.tool_calls]. *)
Definition tool_node_with_fallback (run : tool_call -> tool_outcome)
  (st : State) : res patch :=
  match last_message (messages st) with
  | Some (AIMessage _ tcs) =>
      let outs := map run tcs in
      match first_raise outs with
      | Some e => Ok (msgs_patch (handle_tool_error e tcs))
      | None => Ok (msgs_patch (zip_with (fun tc o => ToolMessage (tool_output o) (tc_id tc)) tcs outs))
      end
  | _ => Raise AttributeError
  end.

Fixpoint arg_lookup (k : string) (args : list (string * string)) : option string :=
  match args with
  | [] => None
  | (k', v) :: args' => if String.eqb k k' then Some v else arg_lookup k args'
  end.

(** The [db_query_tool] tool run against a database [db] that maps a
    statement to its outcome. *)
Definition run_db_query_tool (db : string -> db_outcome) (tc : tool_call) : tool_outcome :=
  match arg_lookup "query" (tc_args tc) with
  | Some q => ToolOk (db_query_tool (db q))
  | None => ToolRaise "ValidationError(query: Field required)"
  end.

(* ------------------------------------------------------------------ *)
(** ** Nodes *)

Definition tool_abcd123 : string := "tool_abcd123".

(** [info_sql_database_tool_call] (lines 104-114). *)
Definition info_sql_database_tool_call (st : State) : patch :=
  msgs_patch [AIMessage "" [mkToolCall "info_sql_database_tool" [] tool_abcd123]].

(** [transform_user_question] (lines 252-272): [response_question] is the
    rewritten question returned by the model. *)
Definition transform_user_question (st : State) (response_question : string) : patch :=
  mkPatch [AIMessage response_question []] (Some response_question)
          None None None (Some 1%Z) None.

(** A cached exemplar as returned by [retrieve_contexts]. *)
Record doc := mkDoc { doc_id : Z; doc_query : string; doc_context : string }.

(** The dict [id_to_context] built by the loop of [get_context]; a later
    candidate with the same id overwrites an earlier one. *)
Definition build_id_to_context (context : list doc) : gmap Z string :=
  foldl (fun m d => <[doc_id d := doc_context d]> m) ∅ context.

(** The loop [for id in response.ids: doc = id_to_context[id]; ...]. *)
Fixpoint collect_information (id_to_context : gmap Z string) (ids : list Z)
  (information : string) : res string :=
  match ids with
  | [] => Ok information
  | id :: ids' =>
      match id_to_context !! id with
      | Some d => collect_information id_to_context ids' (information +:+ d +:+ nl +:+ nl)
      | None => Raise (KeyError id)
      end
  end.

(** [get_context] (lines 274-314): [context] is what [retrieve_contexts]
    returns, [response_ids] the ids chosen by the reranking model. *)
Definition get_context (st : State) (context : list doc) (response_ids : list Z)
  : res patch :=
  match context with
  | [] => Ok (mkPatch [AIMessage "No context found" []] None (Some "") None None None None)
  | _ =>
      match collect_information (build_id_to_context context) response_ids "" with
      | Ok information =>
          Ok (mkPatch [AIMessage ("Retrieved Context: " +:+ information) []]
                      None (Some information) None None None None)
      | Raise e => Raise e
      end
  end.

(** [selector] (lines 316-328): the prompt holds the question and the
    last message; [response] is the model's answer, bound to the schema
    tool with [tool_choice="required"]. *)
Definition selector_prompt_messages (st : State) : list message :=
  HumanMessage (question st) :: option_list (last_message (messages st)).

Definition selector (st : State) (response : message) : patch :=
  let sufficient := match sufficient_info st with Some b => b | None => true end in
  let max_retries' := if sufficient then max_retries st else (max_retries st - 1)%Z in
  mkPatch [response] None None None None (Some max_retries') None.

(** The tables a selector response asks the schema tool for. *)
Definition proposed_tables (response : message) : list string :=
  match response with
  | AIMessage _ tcs => omap (fun tc => arg_lookup "table_name" (tc_args tc)) tcs
  | _ => []
  end.

(** [set([m.content for m in state["messages"] if isinstance(m, ToolMessage)])]. *)
Definition tool_contents (ms : list message) : list string :=
  omap (fun m => match m with ToolMessage c _ => Some c | _ => None end) ms.

Definition unique_tool_calls (ms : list message) : list string :=
  remove_dups (tool_contents ms).

(** [contextualiser] (lines 330-344). *)
Definition contextualiser_prompt_messages (st : State) : list message :=
  HumanMessage (question st)
  :: map (fun c => AIMessage c []) (unique_tool_calls (messages st)).

Definition contextualiser (st : State) (response : message) : patch :=
  mkPatch [response] None (Some (content response)) None None None None.

Definition py_bool (b : bool) : string := if b then "True" else "False".

(** [sufficient_tables] (lines 347-360). *)
Definition sufficient_tables (st : State) (sufficiency_decision : bool) (reason : string) : patch :=
  mkPatch [AIMessage ("Sufficient Tables: " +:+ py_bool sufficiency_decision
                      +:+ nl +:+ nl +:+ "Reason: " +:+ reason) []]
          None None (Some sufficiency_decision) None None None.

(** [query_gen] (lines 376-391): the error message is added to the
    prompt when the last message starts with [Error:]. *)
Definition query_gen_prompt_messages (st : State) : list message :=
  [HumanMessage (question st); AIMessage (information st) []]
  ++ match last_message (messages st) with
     | Some m => if startswith (content m) "Error:" then [m] else []
     | None => []
     end.

Definition query_gen_response (sql reasoning : string) : message :=
  AIMessage ("Query: " +:+ sql +:+ nl +:+ nl +:+ "Reasoning: " +:+ reasoning) [].

Definition query_gen (st : State) (sql reasoning : string) : res patch :=
  match last_message (messages st) with
  | None => Raise IndexError
  | Some _ => Ok (mkPatch [query_gen_response sql reasoning] None None None (Some sql) None None)
  end.

(** [query_gen_with_context] (lines 393-416). *)
Definition query_gen_with_context (st : State) (sql reasoning : string) : patch :=
  mkPatch [query_gen_response sql reasoning] None None None (Some sql) None None.

(** [get_query_execution] (lines 432-446). *)
Definition get_query_execution (st : State) : patch :=
  msgs_patch [AIMessage "" [mkToolCall "db_query_tool" [("query", query st)] "query_execution"]].

(** [chart_generation] (lines 448-461): [chart_type] is the classifier's
    answer and [render_call] the tool-calling answer of the model bound
    to the line or bar renderer. *)
Definition chart_generation (st : State) (chart_type : string) (render_call : message) : patch :=
  let response :=
    if String.eqb chart_type "line" then render_call
    else if String.eqb chart_type "bar" then render_call
    else AIMessage "Could not generate chart" [] in
  mkPatch [response] None None None None None (Some chart_type).

(** [final_answer] (lines 464-467). *)
Definition final_answer (st : State) : patch :=
  msgs_patch [AIMessage (query st) []].

(* ------------------------------------------------------------------ *)
(** ** Edge functions *)

(** [query_router] (lines 494-507): [None] when the classification is
    neither label (the function falls off its end). *)
Definition query_router (classification : string) : option string :=
  if String.eqb classification "SQLRequest" then Some "transform_user_question"
  else if String.eqb classification "GeneralQuestion" then Some "react_agent"
  else None.

(** [sufficient_context] (lines 472-477): a non-empty string is truthy. *)
Definition sufficient_context (st : State) : string :=
  if String.eqb (information st) "" then "info_sql_database_tool_call"
  else "query_gen_with_context".

(** [continue_sufficient_tables] (lines 509-515). *)
Definition continue_sufficient_tables (st : State) : res string :=
  match sufficient_info st with
  | None => Raise (KeyErrorStr "sufficient_info")
  | Some sufficient =>
      if sufficient || Z.eqb (max_retries st) 0 then Ok "query_gen" else Ok "selector"
  end.

(** [continue_query_gen] (lines 518-529).  The assignment
    [state["query"] = ""] mutates the edge's local copy of the state only
    and is not written back to the graph. *)
Definition continue_query_gen (st : State) : res string :=
  match last_message (messages st) with
  | None => Raise IndexError
  | Some last =>
      if Z.ltb (max_retries st) 0 then Ok "failed"
      else if startswith (content last) "Error:" then Ok "query_gen"
      else Ok "correct_query"
  end.

(** [generate_chart] (lines 531-538). *)
Definition generate_chart (st : State) : string :=
  if String.eqb (chart_type st) "line" then "line_graph_tool"
  else if String.eqb (chart_type st) "bar" then "bar_graph_tool"
  else "None".

(* ------------------------------------------------------------------ *)
(** ** The compiled workflow (lines 541-624) *)

Module Node.
Inductive name :=
| START | react_agent | transform_user_question | get_context
| info_sql_database_tool_call | info_sql_database_tool | tables_selector
| get_schema_tool | contextualiser | sufficient_tables | query_gen
| query_gen_with_context | get_query_execution | query_execute
| line_graph_tool | bar_graph_tool | chart_generation | final_answer | END.

#[global] Instance name_eq_dec : EqDecision name.
Proof. solve_decision. Defined.
End Node.

(** What the outside world contributes to one node execution. *)
Inductive input :=
| IRoute (classification : string)
| IReact (ms : list message)
| IQuestion (q : string)
| IContext (context : list doc) (ids : list Z)
| IModel (response : message)
| ITools (run : tool_call -> tool_outcome)
| IVerdict (decision : bool) (reason : string)
| ISql (sql reasoning : string)
| IDb (db : string -> db_outcome)
| IChart (chart_type : string) (render_call : message)
| INone.

Definition empty_patch : patch := msgs_patch [].

(** Executing a node on its input; [None] when the input is not the kind
    the node consumes. *)
Definition exec_node (n : Node.name) (i : input) (st : State) : option (res patch) :=
  match n, i with
  | Node.START, IRoute _ => Some (Ok empty_patch)
  | Node.react_agent, IReact ms => Some (Ok (msgs_patch ms))
  | Node.transform_user_question, IQuestion q => Some (Ok (transform_user_question st q))
  | Node.get_context, IContext ctx ids => Some (get_context st ctx ids)
  | Node.info_sql_database_tool_call, INone => Some (Ok (info_sql_database_tool_call st))
  | Node.info_sql_database_tool, ITools run => Some (tool_node_with_fallback run st)
  | Node.tables_selector, IModel r => Some (Ok (selector st r))
  | Node.get_schema_tool, ITools run => Some (tool_node_with_fallback run st)
  | Node.contextualiser, IModel r => Some (Ok (contextualiser st r))
  | Node.sufficient_tables, IVerdict b r => Some (Ok (sufficient_tables st b r))
  | Node.query_gen, ISql q r => Some (query_gen st q r)
  | Node.query_gen_with_context, ISql q r => Some (Ok (query_gen_with_context st q r))
  | Node.get_query_execution, INone => Some (Ok (get_query_execution st))
  | Node.query_execute, IDb db => Some (tool_node_with_fallback (run_db_query_tool db) st)
  | Node.line_graph_tool, ITools run => Some (tool_node_with_fallback run st)
  | Node.bar_graph_tool, ITools run => Some (tool_node_with_fallback run st)
  | Node.chart_generation, IChart ct r => Some (Ok (chart_generation st ct r))
  | Node.final_answer, INone => Some (Ok (final_answer st))
  | _, _ => None
  end.

(** A conditional edge: its path map, and LangGraph's error for a label
    missing from it. *)
Definition branch (path_map : list (string * Node.name)) (label : string) : res Node.name :=
  match find (fun kv => String.eqb (fst kv) label) path_map with
  | Some (_, n) => Ok n
  | None => Raise (BranchError label)
  end.

Definition bind_res {A B} (r : res A) (k : A -> res B) : res B :=
  match r with Ok a => k a | Raise e => Raise e end.

(** The edges, evaluated on the state after the node's patch. *)
Definition edge (n : Node.name) (i : input) (st : State) : res Node.name :=
  match n with
  | Node.START =>
      match i with
      | IRoute c =>
          match query_router c with
          | Some l => branch [("react_agent", Node.react_agent);
                              ("transform_user_question", Node.transform_user_question)] l
          | None => Raise (BranchError "None")
          end
      | _ => Raise (BranchError "None")
      end
  | Node.transform_user_question => Ok Node.get_context
  | Node.get_context =>
      branch [("info_sql_database_tool_call", Node.END);
              ("query_gen_with_context", Node.query_gen_with_context)]
             (sufficient_context st)
  | Node.info_sql_database_tool_call => Ok Node.info_sql_database_tool
  | Node.info_sql_database_tool => Ok Node.tables_selector
  | Node.tables_selector => Ok Node.get_schema_tool
  | Node.get_schema_tool => Ok Node.contextualiser
  | Node.contextualiser => Ok Node.sufficient_tables
  | Node.sufficient_tables =>
      bind_res (continue_sufficient_tables st)
        (branch [("selector", Node.tables_selector); ("query_gen", Node.query_gen)])
  | Node.query_gen_with_context => Ok Node.get_query_execution
  | Node.query_gen => Ok Node.get_query_execution
  | Node.get_query_execution => Ok Node.query_execute
  | Node.query_execute =>
      bind_res (continue_query_gen st)
        (branch [("query_gen", Node.query_gen); ("correct_query", Node.chart_generation);
                 ("failed", Node.END)])
  | Node.chart_generation =>
      branch [("line_graph_tool", Node.line_graph_tool); ("bar_graph_tool", Node.bar_graph_tool);
              ("None", Node.END)] (generate_chart st)
  | Node.line_graph_tool => Ok Node.final_answer
  | Node.bar_graph_tool => Ok Node.final_answer
  | Node.react_agent => Ok Node.END
  | Node.final_answer => Ok Node.END
  | Node.END => Ok Node.END
  end.

Definition config : Type := Node.name * State.

(** One superstep: run the node, merge its patch, follow its edge. *)
Definition step (i : input) (c : config) : option (res config) :=
  let (n, st) := c in
  match exec_node n i st with
  | None => None
  | Some (Raise e) => Some (Raise e)
  | Some (Ok p) =>
      let st' := apply_patch st p in
      match edge n i st' with
      | Ok n' => Some (Ok (n', st'))
      | Raise e => Some (Raise e)
      end
  end.

(** The configurations a run passes through, fed one input per step; it
    stops early at an exception or an input the node does not consume. *)
Fixpoint run_trace (ins : list input) (c : config) : list config :=
  c :: match ins with
       | [] => []
       | i :: ins' =>
           match step i c with
           | Some (Ok c') => run_trace ins' c'
           | _ => []
           end
       end.

(** The final outcome of a run. *)
Fixpoint run (ins : list input) (c : config) : option (res config) :=
  match ins with
  | [] => Some (Ok c)
  | i :: ins' =>
      match step i c with
      | Some (Ok c') => run ins' c'
      | r => r
      end
  end.

(** The state a session starts from: the user's message only.  The other
    keys are not set yet; on the SQL path each is written before it is
    read ([max_retries] by [transform_user_question]), so the placeholder
    values here are never observed there. *)
Definition initial_state (user_message : string) : State :=
  mkState "" [HumanMessage user_message] "" None "" 0%Z "".

(* ------------------------------------------------------------------ *)
(** ** The schema-discovery tools *)

(** [info_sql_database_tool] (lines 156-165): [o] is the outcome of its
    fixed [INFORMATION_SCHEMA] statement. *)
Definition info_sql_database_tool (o : db_outcome) : string :=
  "Tables and Descriptions:" +:+ nl +:+ nl +:+ run_no_throw o.

(** The tool as the tool node runs it; it takes no argument. *)
Definition run_info_sql_database_tool (o : db_outcome) : tool_call -> tool_outcome :=
  fun _ => ToolOk (info_sql_database_tool o).

(** [re.sub(pattern, "", result)] with the pattern [/\*.*?\*/] and
    [re.DOTALL] (lines 175-176).  The scan tries the pattern at each
    position from the left: the two characters of [/*], then the
    shortest text up to the first [*/].  On a match the matched text is
    dropped and the scan resumes after it; otherwise one character is
    kept and the scan moves on. *)
Fixpoint after_comment_close (s : string) : option string :=
  match s with
  | String c1 rest =>
      match rest with
      | String c2 r =>
          if Ascii.eqb c1 "*"%char && Ascii.eqb c2 "/"%char then Some r
          else after_comment_close rest
      | EmptyString => None
      end
  | EmptyString => None
  end.

(** The text following a match of the pattern at the start of [s]. *)
Definition comment_at (s : string) : option string :=
  match s with
  | String c1 (String c2 r) =>
      if Ascii.eqb c1 "/"%char && Ascii.eqb c2 "*"%char then after_comment_close r else None
  | _ => None
  end.

Fixpoint strip_block_comments_fuel (fuel : nat) (s : string) : string :=
  match fuel with
  | O => s
  | S fuel' =>
      match comment_at s with
      | Some r => strip_block_comments_fuel fuel' r
      | None =>
          match s with
          | EmptyString => EmptyString
          | String c rest => String c (strip_block_comments_fuel fuel' rest)
          end
      end
  end.

(** Every step of the scan consumes at least one character, so
    [length s] steps finish it. *)
Definition strip_block_comments (s : string) : string :=
  strip_block_comments_fuel (String.length s) s.

(** [get_schema_tool] (lines 168-178): [result] is what langchain's
    [sql_db_schema] tool answers for [table_name]. *)
Definition get_schema_tool (table_name result : string) : string :=
  "Selected Table " +:+ table_name +:+ nl +:+ nl +:+ "Schema: " +:+ strip_block_comments result.

(** [s] contains the character [a] immediately followed by [b]. *)
Fixpoint has_pair (a b : ascii) (s : string) : bool :=
  match s with
  | String c1 rest =>
      match rest with
      | String c2 _ => (Ascii.eqb c1 a && Ascii.eqb c2 b) || has_pair a b rest
      | EmptyString => false
      end
  | EmptyString => false
  end.

(* ------------------------------------------------------------------ *)
(** ** The router's prompt *)

(** [query_router] (lines 500-502) shows the model
    [state["messages"][0]] only; [IndexError] on an empty log. *)
Definition query_router_prompt_messages (st : State) : res (list message) :=
  match messages st with
  | m :: _ => Ok [m]
  | [] => Raise IndexError
  end.

(* ------------------------------------------------------------------ *)
(** ** Where a session can be (used by the reachability results) *)

(** On the way from [START]: the schema-discovery nodes are never
    reached, and after [transform_user_question] the retry budget is 1. *)
Definition session_inv (c : config) : Prop :=
  match fst c with
  | Node.START | Node.react_agent | Node.transform_user_question | Node.END => True
  | Node.info_sql_database_tool_call | Node.info_sql_database_tool | Node.tables_selector
  | Node.get_schema_tool | Node.contextualiser | Node.sufficient_tables => False
  | _ => max_retries (snd c) = 1%Z
  end.

Definition schema_discovery_nodes : list Node.name :=
  [Node.info_sql_database_tool_call; Node.info_sql_database_tool; Node.tables_selector;
   Node.get_schema_tool; Node.contextualiser; Node.sufficient_tables].

(* ------------------------------------------------------------------ *)
(** ** The service (src/src/service/app.py) *)

(** [StateSnapshot.next] of a checkpoint: the node about to run, and
    nothing once the run has ended. *)
Definition snapshot_next (c : config) : list Node.name :=
  match fst c with
  | Node.END => []
  | n => [n]
  end.

(** [update_information] (lines 327-331): the checkpoint to fork from is
    the first snapshot of [agent.get_state_history] whose next node is
    [sufficient_tables]; [None] when there is none. *)
Definition update_information_fork (history : list config) : option config :=
  find (fun h => match snapshot_next h with
                 | n :: _ => bool_decide (n = Node.sufficient_tables)
                 | [] => false
                 end) history.

(** The history of a thread, newest checkpoint first: the checkpoints of
    its sessions, each run from [START] on the thread's state at the
    time. *)
Definition thread_history (sessions : list (list input * State)) : list config :=
  rev (List.concat (map (fun s => run_trace (fst s) (Node.START, snd s)) sessions)).

(** The content of a message as the service sees it
    (src/src/service/utils.py): a string, or a list of parts that are
    strings or dicts; a dict value is a string or anything else. *)
Inductive json :=
| JStr (s : string)
| JOther.

#[global] Instance json_eq_dec : EqDecision json.
Proof. solve_decision. Defined.

Inductive content_item :=
| CStr (s : string)
| CDict (fields : list (string * json)).

Inductive msg_content :=
| CText (s : string)
| CList (items : list content_item).

Inductive py_error :=
| PyKeyError (key : string)
| PyTypeError.

Fixpoint dict_get (k : string) (d : list (string * json)) : option json :=
  match d with
  | [] => None
  | (k', v) :: d' => if String.eqb k k' then Some v else dict_get k d'
  end.

(** The loop of [convert_message_content_to_string] (lines 22-28): the
    values it collects, or the [KeyError] of a dict without ["type"], or
    of a text part without ["text"]. *)
Fixpoint collect_text (items : list content_item) : list json + py_error :=
  match items with
  | [] => inl []
  | CStr s :: items' =>
      match collect_text items' with inl t => inl (JStr s :: t) | inr e => inr e end
  | CDict d :: items' =>
      match dict_get "type" d with
      | None => inr (PyKeyError "type")
      | Some ty =>
          if bool_decide (ty = JStr "text") then
            match dict_get "text" d with
            | None => inr (PyKeyError "text")
            | Some t => match collect_text items' with inl ts => inl (t :: ts) | inr e => inr e end
            end
          else collect_text items'
      end
  end.

(** The join of the collected values with the empty separator: a value
    that is not a string is a [TypeError]. *)
Fixpoint py_join (parts : list json) : string + py_error :=
  match parts with
  | [] => inl ""
  | JStr s :: ps => match py_join ps with inl r => inl (s +:+ r) | inr e => inr e end
  | JOther :: _ => inr PyTypeError
  end.

(** [convert_message_content_to_string] (lines 19-29). *)
Definition convert_message_content_to_string (c : msg_content) : string + py_error :=
  match c with
  | CText s => inl s
  | CList items => match collect_text items with inl t => py_join t | inr e => inr e end
  end.

(** The comprehension of [remove_tool_calls] (lines 77-81). *)
Fixpoint drop_tool_use (items : list content_item) : list content_item + py_error :=
  match items with
  | [] => inl []
  | CStr s :: items' =>
      match drop_tool_use items' with inl r => inl (CStr s :: r) | inr e => inr e end
  | CDict d :: items' =>
      match dict_get "type" d with
      | None => inr (PyKeyError "type")
      | Some ty =>
          if bool_decide (ty <> JStr "tool_use") then
            match drop_tool_use items' with inl r => inl (CDict d :: r) | inr e => inr e end
          else drop_tool_use items'
      end
  end.

(** [remove_tool_calls] (lines 72-81). *)
Definition remove_tool_calls (c : msg_content) : msg_content + py_error :=
  match c with
  | CText s => inl (CText s)
  | CList items => match drop_tool_use items with inl r => inl (CList r) | inr e => inr e end
  end.

(* ------------------------------------------------------------------ *)
(** ** Concrete inputs used by the witnesses and counterexamples *)

Fixpoint rep_str (n : nat) (s : string) : string :=
  match n with O => "" | S n' => s +:+ rep_str n' s end.

(** A result set whose rendering is longer than 2000 characters. *)
Definition long_rows : list (list string) := [[rep_str 2100 "x"]].

(** A database on which every statement fails. *)
Definition failing_db (msg : string) : string -> db_outcome := fun _ => DbFailure msg.

(** A database on which the statement [good] returns one row and every
    other statement fails with [msg]. *)
Definition fixed_db (good msg : string) : string -> db_outcome :=
  fun q => if String.eqb q good then DbRows [["42"]] else DbFailure msg.

Definition po_question : string := "How many purchase orders were issued in 2023?".

Definition cached_doc : doc :=
  mkDoc 7 "How many purchase orders in 2022?" "Table purchase_orders(date_issued DATE)".

(** Up to the first execution of a session that reuses cached context. *)
Definition session_to_first_execution (sql : string) (db : string -> db_outcome) : list input :=
  [IRoute "SQLRequest"; IQuestion po_question; IContext [cached_doc] [7%Z];
   ISql sql "first attempt"; INone; IDb db].

(** One more pass through the correction loop. *)
Definition correction_round (sql : string) (db : string -> db_outcome) : list input :=
  [ISql sql "corrected"; INone; IDb db].

(** Scenario B and C of the spec: a statement naming a missing column. *)
Definition bad_sql : string :=
  "SELECT COUNT(*) FROM purchase_orders po WHERE YEAR(po.date) = 2023".
Definition bad_sql_retry : string :=
  "SELECT COUNT(*) FROM purchase_orders po WHERE YEAR(po.date) >= 2023".
Definition good_sql : string :=
  "SELECT COUNT(*) FROM purchase_orders po WHERE po.date_issued BETWEEN '2023-01-01' AND '2023-12-31'".
Definition unknown_column : string := "unknown column 'po.date'".

(** Scenario B: the first statement fails, the corrected one runs. *)
Definition scenario_b_db : string -> db_outcome := fixed_db good_sql unknown_column.
Definition scenario_b : list input :=
  session_to_first_execution bad_sql scenario_b_db ++ correction_round good_sql scenario_b_db.

(** Scenario C: both executions fail. *)
Definition scenario_c : list input :=
  session_to_first_execution bad_sql (failing_db unknown_column)
  ++ correction_round bad_sql_retry (failing_db unknown_column).

(** The sufficiency loop, entered at [tables_selector] after the table
    listing, with two insufficient verdicts in a row.  The model proposes
    [purchase_orders] again on the second pass, and its second summary
    leaves out the first. *)
Definition schema_tool_call (t : string) : tool_call :=
  mkToolCall "get_schema_tool" [("table_name", t)] ("call_" +:+ t).

Definition select_tables (ts : list string) : message :=
  AIMessage "" (map schema_tool_call ts).

(** The schema tool of lines 168-178 on a table [t]. *)
Definition schema_run : tool_call -> tool_outcome := fun tc =>
  match arg_lookup "table_name" (tc_args tc) with
  | Some t => ToolOk ("Selected Table " +:+ t +:+ nl +:+ nl +:+ "Schema: CREATE TABLE " +:+ t)
  | None => ToolRaise "ValidationError(table_name: Field required)"
  end.

Definition loop_state0 : State :=
  mkState po_question
    [HumanMessage po_question;
     AIMessage "" [mkToolCall "info_sql_database_tool" [] tool_abcd123];
     ToolMessage "Tables and Descriptions:" tool_abcd123]
    "" None "" 1 "".

Definition summary_1 : string := "Tables: purchase_orders (date_issued DATE)".
Definition summary_2 : string := "Tables: suppliers (name VARCHAR)".

Definition loop_run : list input :=
  [IModel (select_tables ["purchase_orders"]); ITools schema_run;
   IModel (AIMessage summary_1 []); IVerdict false "supplier names missing";
   IModel (select_tables ["purchase_orders"; "suppliers"]); ITools schema_run;
   IModel (AIMessage summary_2 []); IVerdict false "still missing"].

(** The chart stage with a renderer that raises on series of different
    lengths. *)
Definition line_call : tool_call :=
  mkToolCall "line_graph_tool" [("x", "[1, 2]"); ("y", "[3, 4, 5]")] "call_line".

Definition failing_render : tool_call -> tool_outcome := fun _ =>
  ToolRaise "ValueError('x and y must have same first dimension')".

Definition scenario_b_with_line_chart : list input :=
  scenario_b ++ [IChart "line" (AIMessage "" [line_call]); ITools failing_render; INone].

(** The answer of langchain's [sql_db_schema] for one table: the
    [CREATE TABLE] statement, then sample rows inside a comment. *)
Definition po_create : string :=
  nl +:+ "CREATE TABLE purchase_orders (" +:+ nl +:+ "  id INT, date_issued DATE" +:+ nl
  +:+ ")" +:+ nl +:+ nl.

Definition po_sample_rows : string :=
  nl +:+ "3 rows from purchase_orders table:" +:+ nl +:+ "id  date_issued" +:+ nl
  +:+ "1  2023-01-05" +:+ nl.

(** A second cached exemplar. *)
Definition supplier_doc : doc :=
  mkDoc 9 "Which suppliers sent invoices in 2022?" "Table suppliers(name VARCHAR)".

(** The state on the way into the execution of [bad_sql]. *)
Definition before_execution : State :=
  mkState po_question [HumanMessage po_question] (doc_context cached_doc) None bad_sql 1 "".

(** A content list streamed by a model: a text part, a tool-use part and
    a plain string. *)
Definition streamed_parts : list content_item :=
  [CDict [("type", JStr "text"); ("text", JStr "Counting orders")];
   CDict [("type", JStr "tool_use"); ("id", JStr "toolu_1")];
   CStr " in 2023"].

(* ------------------------------------------------------------------ *)
(** ** Helper lemmas *)

Lemma length_substring_0 (n : nat) (s : string) :
  String.length (String.substring 0 n s) = Nat.min n (String.length s).
Proof.
  revert s; induction n as [|n IH]; intros s; destruct s as [|a s]; try reflexivity.
  simpl. rewrite IH. reflexivity.
Qed.

Lemma length_append (s1 s2 : string) :
  String.length (s1 +:+ s2) = String.length s1 + String.length s2.
Proof. induction s1 as [|a s1 IH]; simpl; [reflexivity | f_equal; exact IH]. Qed.

(** A successful execution never renders as an [Error:] payload. *)
Lemma run_no_throw_rows_not_error (rs : list (list string)) :
  startswith (run_no_throw (DbRows rs)) "Error:" = false.
Proof. destruct rs; reflexivity. Qed.

Lemma run_no_throw_failure_error (m : string) :
  startswith (run_no_throw (DbFailure m)) "Error:" = true.
Proof. reflexivity. Qed.

Lemma db_query_tool_failure (m : string) :
  db_query_tool (DbFailure m) = query_failed_banner +:+ ("Error: " +:+ m).
Proof. reflexivity. Qed.

Lemma db_query_tool_rows (rs : list (list string)) :
  db_query_tool (DbRows rs) =
  (let r := run_no_throw (DbRows rs) in
   if Nat.ltb 2000 (py_len r) then py_take 2000 r +:+ "..." else r).
Proof. unfold db_query_tool. rewrite run_no_throw_rows_not_error. reflexivity. Qed.

(* ------------------------------------------------------------------ *)
(** ** Claims *)

(** C4: the query-execution tool wraps a failure in a payload starting
    with [Error:] and carrying the database's error text; a successful
    result longer than 2000 characters becomes exactly its first 2000
    characters followed by [...]; any other result is returned as is. *)
Theorem db_query_tool_contract :
  (forall m : string,
     db_query_tool (DbFailure m) = query_failed_banner +:+ ("Error: " +:+ m)
     /\ startswith (db_query_tool (DbFailure m)) "Error:" = true) /\
  (forall rs : list (list string),
     let r := run_no_throw (DbRows rs) in
     (2000 < py_len r ->
        db_query_tool (DbRows rs) = py_take 2000 r +:+ "..."
        /\ py_len (py_take 2000 r) = 2000) /\
     (py_len r <= 2000 -> db_query_tool (DbRows rs) = r)).
Proof.
  split.
  - intros m. split; [apply db_query_tool_failure | reflexivity].
  - intros rs. cbv zeta. rewrite db_query_tool_rows. cbv zeta.
    set (r := run_no_throw (DbRows rs)). split.
    + intros Hlt. apply Nat.ltb_lt in Hlt as Hb. rewrite Hb. split; [reflexivity|].
      unfold py_take, py_len in *. rewrite length_substring_0. lia.
    + intros Hle. assert (Hb : Nat.ltb 2000 (py_len r) = false) by (apply Nat.ltb_ge; lia).
      rewrite Hb. reflexivity.
Qed.

Lemma db_query_tool_contract_witness :
  2000 < py_len (run_no_throw (DbRows long_rows)) /\
  db_query_tool (DbRows long_rows) = py_take 2000 (run_no_throw (DbRows long_rows)) +:+ "..." /\
  py_len (run_no_throw (DbRows [["42"]])) <= 2000 /\
  db_query_tool (DbRows [["42"]]) = run_no_throw (DbRows [["42"]]).
Proof.
  assert (H1 : 2000 < py_len (run_no_throw (DbRows long_rows))) by (vm_compute; lia).
  assert (H2 : py_len (run_no_throw (DbRows [["42"]])) <= 2000) by (vm_compute; lia).
  split; [exact H1|]. split; [exact (proj1 (proj1 (proj2 db_query_tool_contract long_rows) H1))|].
  split; [exact H2|]. exact (proj2 (proj2 db_query_tool_contract [["42"]]) H2).
Defined.

(** C10: the error check comes before the length cap, so a failure is
    returned as the full wrapped payload whatever its length: it is never
    cut to 2000 characters nor given the ellipsis. *)
Theorem db_query_tool_error_untruncated (m : string) :
  db_query_tool (DbFailure m) = query_failed_banner +:+ ("Error: " +:+ m)
  /\ py_len (db_query_tool (DbFailure m))
     = py_len query_failed_banner + 7 + py_len m.
Proof.
  rewrite db_query_tool_failure. split; [reflexivity|].
  unfold py_len. rewrite !length_append. reflexivity.
Qed.

Lemma build_id_to_context_is_Some_gen (ctx : list doc) (m : gmap Z string) (id : Z) :
  is_Some (foldl (fun m d => <[doc_id d := doc_context d]> m) m ctx !! id)
  <-> id ∈ map doc_id ctx \/ is_Some (m !! id).
Proof.
  revert m. induction ctx as [|d ctx IH]; intros m; simpl.
  - rewrite elem_of_nil. tauto.
  - rewrite IH, lookup_insert_is_Some', elem_of_cons. naive_solver.
Qed.

Lemma build_id_to_context_is_Some (ctx : list doc) (id : Z) :
  is_Some (build_id_to_context ctx !! id) <-> id ∈ map doc_id ctx.
Proof.
  unfold build_id_to_context. rewrite build_id_to_context_is_Some_gen.
  pose proof (lookup_empty_is_Some (M:=gmap Z) (A:=string) id). tauto.
Qed.

Lemma collect_information_ok (m : gmap Z string) (ids : list Z) (info : string) :
  Forall (fun id => is_Some (m !! id)) ids -> exists s, collect_information m ids info = Ok s.
Proof.
  revert info. induction ids as [|id ids IH]; intros info Hall; simpl; [eauto|].
  apply Forall_cons in Hall as [[d Hd] Hall]. rewrite Hd. apply IH, Hall.
Qed.

Lemma collect_information_missing (m : gmap Z string) (ids : list Z) (info : string) :
  (exists id, id ∈ ids /\ m !! id = None) ->
  exists k, m !! k = None /\ collect_information m ids info = Raise (KeyError k).
Proof.
  revert info. induction ids as [|id ids IH]; intros info [id0 [Hin Hnone]]; simpl.
  - apply elem_of_nil in Hin. contradiction.
  - destruct (m !! id) as [d|] eqn:Hd.
    + apply IH. apply elem_of_cons in Hin as [->|Hin]; [congruence|eauto].
    + eauto.
Qed.

(** C9: when the reranking returns an id that is not among the fetched
    candidates, the lookup [id_to_context[id]] raises [KeyError] and the
    pipeline step fails; when every returned id is a candidate id, the
    lookups all succeed. *)
Theorem get_context_lookup_keyerror (st : State) (context : list doc) (ids : list Z) :
  context <> [] ->
  ((exists id, id ∈ ids /\ id ∉ map doc_id context) ->
     exists k, (k ∉ map doc_id context)
       /\ step (IContext context ids) (Node.get_context, st) = Some (Raise (KeyError k))) /\
  (Forall (fun id => id ∈ map doc_id context) ids ->
     exists p, get_context st context ids = Ok p).
Proof.
  intros Hne. split.
  - intros [id [Hin Hout]].
    destruct (collect_information_missing (build_id_to_context context) ids "") as [k [Hk Hc]].
    { exists id. split; [exact Hin|]. apply eq_None_not_Some.
      rewrite build_id_to_context_is_Some. exact Hout. }
    exists k. split.
    + rewrite <- build_id_to_context_is_Some, Hk. apply is_Some_None.
    + unfold step.
      change (exec_node Node.get_context (IContext context ids) st)
        with (Some (get_context st context ids)).
      unfold get_context. destruct context as [|d ctx]; [congruence|].
      rewrite Hc. reflexivity.
  - intros Hall.
    destruct (collect_information_ok (build_id_to_context context) ids "") as [s Hs].
    { eapply Forall_impl; [exact Hall|]. intros id Hid.
      apply build_id_to_context_is_Some. exact Hid. }
    unfold get_context. destruct context as [|d ctx]; [congruence|]. rewrite Hs. eauto.
Qed.

Lemma get_context_lookup_keyerror_witness :
  (exists k, (k ∉ map doc_id [cached_doc])
     /\ step (IContext [cached_doc] [8%Z]) (Node.get_context, initial_state po_question)
        = Some (Raise (KeyError k))) /\
  (exists p, get_context (initial_state po_question) [cached_doc] [7%Z] = Ok p).
Proof.
  split.
  - apply (get_context_lookup_keyerror (initial_state po_question) [cached_doc] [8%Z]);
      [discriminate|]. exists 8%Z. split; [left|]. simpl. rewrite elem_of_cons, elem_of_nil.
    unfold cached_doc; simpl. lia.
  - apply (get_context_lookup_keyerror (initial_state po_question) [cached_doc] [7%Z]);
      [discriminate|]. repeat constructor.
Defined.

(** C2: when the context store returns no exemplar, [get_context] leaves
    [information] empty and [sufficient_context] picks the label
    [info_sql_database_tool_call]; the path map sends that label to
    [END], so the session ends there instead of entering schema
    discovery (the node [info_sql_database_tool_call] is wired onward to
    [info_sql_database_tool] but is never reached). *)
Theorem get_context_no_exemplars_ends (st : State) (ids : list Z) :
  step (IContext [] ids) (Node.get_context, st)
  = Some (Ok (Node.END, apply_patch st (mkPatch [AIMessage "No context found" []]
                                               None (Some "") None None None None)))
  /\ sufficient_context (apply_patch st (mkPatch [AIMessage "No context found" []]
                                               None (Some "") None None None None))
     = "info_sql_database_tool_call"
  /\ edge Node.info_sql_database_tool_call INone st = Ok Node.info_sql_database_tool.
Proof. split; [reflexivity | split; reflexivity]. Qed.

Lemma run_app (ins1 ins2 : list input) (c : config) :
  run (ins1 ++ ins2) c =
  match run ins1 c with Some (Ok c') => run ins2 c' | r => r end.
Proof.
  revert c. induction ins1 as [|i ins1 IH]; intros c; simpl; [reflexivity|].
  destruct (step i c) as [[c'|e]|]; [apply IH|reflexivity|reflexivity].
Qed.

Lemma last_message_apply_patch (st : State) (p : patch) (m : message) :
  p_messages p = [m] -> last_message (messages (apply_patch st p)) = Some m.
Proof. intros Hp. unfold last_message; simpl. rewrite Hp. apply last_snoc. Qed.

Lemma banner_is_error (s : string) : startswith (query_failed_banner +:+ s) "Error:" = true.
Proof. reflexivity. Qed.

(** One pass of the correction loop on a database where every statement
    fails: [query_gen], [get_query_execution] and [query_execute] leave
    [max_retries] untouched, so [continue_query_gen] sends the session
    back to [query_gen] whatever the budget, as long as it is not already
    negative. *)
Lemma correction_round_failing (st : State) (db : string -> db_outcome) (sql : string) :
  (forall q, exists m, db q = DbFailure m) ->
  messages st <> [] -> (0 <= max_retries st)%Z ->
  exists st', run (correction_round sql db) (Node.query_gen, st) = Some (Ok (Node.query_gen, st'))
         /\ max_retries st' = max_retries st
         /\ messages st `prefix_of` messages st'.
Proof.
  intros Hdb Hne Hmax. destruct (Hdb sql) as [m Hm].
  destruct (last_message (messages st)) as [lm|] eqn:Hlast;
    [| unfold last_message in Hlast; apply last_None in Hlast; contradiction].
  set (st1 := apply_patch st (mkPatch [query_gen_response sql "corrected"] None None None (Some sql) None None)).
  set (st2 := apply_patch st1 (get_query_execution st1)).
  set (tm := ToolMessage (db_query_tool (DbFailure m)) "query_execution").
  set (st3 := apply_patch st2 (msgs_patch [tm])).
  exists st3.
  assert (E1 : step (ISql sql "corrected") (Node.query_gen, st) = Some (Ok (Node.get_query_execution, st1))).
  { unfold step; simpl. unfold query_gen. rewrite Hlast. reflexivity. }
  assert (E2 : step INone (Node.get_query_execution, st1) = Some (Ok (Node.query_execute, st2))).
  { reflexivity. }
  assert (Hl2 : last_message (messages st2) =
                Some (AIMessage "" [mkToolCall "db_query_tool" [("query", sql)] "query_execution"])).
  { apply last_message_apply_patch. reflexivity. }
  assert (E3 : step (IDb db) (Node.query_execute, st2) = Some (Ok (Node.query_gen, st3))).
  { unfold step. simpl exec_node. unfold tool_node_with_fallback. rewrite Hl2.
    change (map (run_db_query_tool db) [mkToolCall "db_query_tool" [("query", sql)] "query_execution"])
      with [ToolOk (db_query_tool (db sql))].
    rewrite Hm. simpl first_raise. cbv beta iota. simpl zip_with. fold tm. fold st3.
    assert (Hl3 : last_message (messages st3) = Some tm) by (apply last_message_apply_patch; reflexivity).
    unfold edge, continue_query_gen. rewrite Hl3.
    assert (Hm3 : max_retries st3 = max_retries st) by reflexivity.
    rewrite Hm3. destruct (Z.ltb_spec (max_retries st) 0); [lia|].
    unfold tm, content. rewrite db_query_tool_failure, banner_is_error. reflexivity. }
  split; [| split].
  - unfold correction_round. cbn [run]. rewrite E1, E2, E3. reflexivity.
  - reflexivity.
  - unfold st3, st2, st1. simpl. rewrite <- !app_assoc. apply prefix_app_r. reflexivity.
Qed.

(** Any number of failing passes: the loop never reaches [END] or the
    chart stage and the budget stays where it was. *)
Lemma correction_loop_never_fails (k : nat) (st : State) (db : string -> db_outcome) (sql : string) :
  (forall q, exists m, db q = DbFailure m) ->
  messages st <> [] -> (0 <= max_retries st)%Z ->
  exists st', run (List.concat (repeat (correction_round sql db) k)) (Node.query_gen, st)
              = Some (Ok (Node.query_gen, st'))
         /\ max_retries st' = max_retries st.
Proof.
  intros Hdb. revert st. induction k as [|k IH]; intros st Hne Hmax.
  - exists st. split; reflexivity.
  - cbn [repeat List.concat]. rewrite run_app.
    destruct (correction_round_failing st db sql Hdb Hne Hmax) as [st1 [E1 [M1 P1]]].
    rewrite E1. destruct (IH st1) as [st2 [E2 M2]].
    + intros Hnil. rewrite Hnil in P1. apply prefix_nil_inv in P1. contradiction.
    + lia.
    + exists st2. split; [exact E2| lia].
Qed.

(** C1 (code defect): with the correction budget at 1 after
    [transform_user_question], two consecutive failing executions do not
    end the session: [continue_query_gen] finds [max_retries = 1], not
    negative, and sends the session to [query_gen] a third time.  No node
    of the correction loop decrements the budget, so the [failed] edge is
    never taken (see [correction_loop_never_fails]). *)
Theorem two_failures_reenter_query_gen :
  map fst (run_trace scenario_c (Node.START, initial_state po_question))
  = [Node.START; Node.transform_user_question; Node.get_context;
     Node.query_gen_with_context; Node.get_query_execution; Node.query_execute;
     Node.query_gen; Node.get_query_execution; Node.query_execute; Node.query_gen]
  /\ exists st, run scenario_c (Node.START, initial_state po_question)
                = Some (Ok (Node.query_gen, st))
             /\ max_retries st = 1%Z.
Proof.
  split; [vm_compute; reflexivity|].
  eexists. split; [vm_compute; reflexivity | reflexivity].
Qed.

(** C3 (code defect): in scenario B the failing execution sends the
    session back to [query_gen], whose prompt ends with the tool's
    [Error:] message carrying the database text, and the corrected
    statement is executed before [chart_generation]; but the budget is
    still 1 on re-entry instead of 0. *)
Theorem scenario_b_correction_keeps_budget :
  map (fun c => (fst c, max_retries (snd c)))
      (run_trace scenario_b (Node.START, initial_state po_question))
  = [(Node.START, 0%Z); (Node.transform_user_question, 0%Z); (Node.get_context, 1%Z);
     (Node.query_gen_with_context, 1%Z); (Node.get_query_execution, 1%Z);
     (Node.query_execute, 1%Z); (Node.query_gen, 1%Z); (Node.get_query_execution, 1%Z);
     (Node.query_execute, 1%Z); (Node.chart_generation, 1%Z)]
  /\ exists st1, run (session_to_first_execution bad_sql scenario_b_db)
                     (Node.START, initial_state po_question) = Some (Ok (Node.query_gen, st1))
              /\ last (query_gen_prompt_messages st1)
                 = Some (ToolMessage (query_failed_banner +:+ ("Error: " +:+ unknown_column))
                                     "query_execution")
              /\ max_retries st1 = 1%Z.
Proof.
  split; [vm_compute; reflexivity|].
  eexists. split; [vm_compute; reflexivity | split; reflexivity].
Qed.

(** Where the retry budget may be at each node: it is 1 on the way into
    the table selector and between 0 and 1 everywhere after it. *)
Definition budget_inv (c : config) : Prop :=
  match fst c with
  | Node.START | Node.react_agent | Node.transform_user_question => False
  | Node.info_sql_database_tool_call | Node.info_sql_database_tool | Node.tables_selector =>
      max_retries (snd c) = 1%Z
  | _ => (0 <= max_retries (snd c) <= 1)%Z
  end.

Lemma branch_in (pm : list (string * Node.name)) (l : string) (n : Node.name) :
  branch pm l = Ok n -> n ∈ map snd pm.
Proof.
  unfold branch. destruct (find _ pm) as [[k v]|] eqn:Hf; intros H; [|discriminate].
  injection H as <-. apply find_some in Hf as [Hin _].
  apply list_elem_of_In, in_map_iff. exists (k, v). split; [reflexivity | exact Hin].
Qed.

(** The nodes each node's edge may lead to. *)
Definition successors (n : Node.name) : list Node.name :=
  match n with
  | Node.START => [Node.react_agent; Node.transform_user_question]
  | Node.transform_user_question => [Node.get_context]
  | Node.get_context => [Node.END; Node.query_gen_with_context]
  | Node.info_sql_database_tool_call => [Node.info_sql_database_tool]
  | Node.info_sql_database_tool => [Node.tables_selector]
  | Node.tables_selector => [Node.get_schema_tool]
  | Node.get_schema_tool => [Node.contextualiser]
  | Node.contextualiser => [Node.sufficient_tables]
  | Node.sufficient_tables => [Node.tables_selector; Node.query_gen]
  | Node.query_gen_with_context | Node.query_gen => [Node.get_query_execution]
  | Node.get_query_execution => [Node.query_execute]
  | Node.query_execute => [Node.query_gen; Node.chart_generation; Node.END]
  | Node.chart_generation => [Node.line_graph_tool; Node.bar_graph_tool; Node.END]
  | Node.line_graph_tool | Node.bar_graph_tool => [Node.final_answer]
  | Node.react_agent | Node.final_answer | Node.END => [Node.END]
  end.

Lemma edge_successors (n : Node.name) (i : input) (st : State) (n' : Node.name) :
  edge n i st = Ok n' -> n' ∈ successors n.
Proof.
  destruct n; simpl; intros H; unfold bind_res in H;
    repeat match type of H with
           | context [match ?x with _ => _ end] => destruct x; try discriminate
           end;
    try (injection H as <-; set_solver);
    (apply branch_in in H; exact H).
Qed.

(** The edge out of the sufficiency gate goes back to the selector only
    after an insufficient verdict with budget left. *)
Lemma edge_sufficient_tables_selector (i : input) (st : State) :
  edge Node.sufficient_tables i st = Ok Node.tables_selector ->
  sufficient_info st = Some false /\ max_retries st <> 0%Z.
Proof.
  intros H. simpl in H. unfold continue_sufficient_tables in H.
  destruct (sufficient_info st) as [[]|]; simpl in H; [simplify_eq | | simplify_eq].
  destruct (Z.eqb_spec (max_retries st) 0); simpl in H; [simplify_eq|].
  split; [reflexivity | assumption].
Qed.

(** Only [transform_user_question] and the selector write [max_retries]. *)
Lemma exec_node_keeps_budget (n : Node.name) (i : input) (st : State) (p : patch) :
  n <> Node.transform_user_question -> n <> Node.tables_selector ->
  exec_node n i st = Some (Ok p) -> p_max_retries p = None.
Proof.
  intros Ht Hs. destruct n, i; simpl; intros H; try discriminate; try congruence;
    unfold get_context, tool_node_with_fallback, query_gen in H;
    repeat (case_match; try discriminate); simplify_eq; reflexivity.
Qed.

Lemma exec_node_selector_budget (i : input) (st : State) (p : patch) :
  exec_node Node.tables_selector i st = Some (Ok p) ->
  exists r, p = selector st r.
Proof. destruct i; simpl; intros H; try discriminate. injection H as <-. eauto. Qed.

Lemma selector_max_retries (st : State) (r : message) :
  max_retries (apply_patch st (selector st r))
  = if decide (sufficient_info st = Some false) then (max_retries st - 1)%Z else max_retries st.
Proof.
  simpl. destruct (sufficient_info st) as [[]|]; simpl; reflexivity.
Qed.

Lemma budget_inv_step (i : input) (c c' : config) :
  budget_inv c -> step i c = Some (Ok c') -> budget_inv c'.
Proof.
  destruct c as [n st]. intros Hinv Hstep. unfold step in Hstep.
  destruct (exec_node n i st) as [[p|e]|] eqn:He; try discriminate.
  destruct (edge n i (apply_patch st p)) as [n'|e] eqn:Hedge; try discriminate.
  injection Hstep as <-.
  pose proof (edge_successors _ _ _ _ Hedge) as Hsucc.
  destruct (decide (n = Node.tables_selector)) as [->|Hns].
  - destruct (exec_node_selector_budget _ _ _ He) as [r ->].
    simpl in Hsucc. apply list_elem_of_singleton in Hsucc as ->.
    unfold budget_inv in Hinv |- *. cbn [fst snd] in Hinv |- *. rewrite selector_max_retries.
    case_decide; lia.
  - destruct (decide (n = Node.transform_user_question)) as [->|Hnt]; [contradiction|].
    assert (Hm : max_retries (apply_patch st p) = max_retries st).
    { simpl. rewrite (exec_node_keeps_budget n i st p Hnt Hns He). reflexivity. }
    destruct n; unfold budget_inv in Hinv; cbn [fst snd] in Hinv; try contradiction; try congruence;
      simpl in Hsucc; repeat rewrite elem_of_cons, ?elem_of_nil in Hsucc;
      repeat match goal with
             | H : _ \/ _ |- _ => destruct H as [->|H]
             | H : False |- _ => contradiction
             end;
      unfold budget_inv; simpl fst; simpl snd; rewrite ?Hm; try lia.
    (* the way back from the gate to the selector *)
    all: apply edge_sufficient_tables_selector in Hedge as [_ Hne];
      rewrite Hm in Hne; lia.
Qed.

Lemma budget_inv_trace (ins : list input) (c : config) :
  budget_inv c -> Forall budget_inv (run_trace ins c).
Proof.
  revert c. induction ins as [|i ins IH]; intros c Hc; simpl.
  - constructor; [exact Hc | constructor].
  - constructor; [exact Hc|].
    destruct (step i c) as [[c'|e]|] eqn:Hs; try constructor.
    apply IH. eapply budget_inv_step; eauto.
Qed.

(** C5: in the sufficiency loop entered with [max_retries = 1], the
    selector decrements the counter only when the last verdict of the
    gate is insufficient (no other node of the loop touches it), the
    counter never goes below 0, the selector is only ever entered with
    the counter at 1, and at 0 the gate's edge gives up to [query_gen]. *)
Theorem sufficiency_loop_retry_budget :
  (forall (st : State) (r : message),
     max_retries (apply_patch st (selector st r))
     = if decide (sufficient_info st = Some false) then (max_retries st - 1)%Z
       else max_retries st) /\
  (forall (i : input) (n n' : Node.name) (st st' : State),
     step i (n, st) = Some (Ok (n', st')) ->
     n <> Node.tables_selector -> n <> Node.transform_user_question ->
     max_retries st' = max_retries st) /\
  (forall (st0 : State) (ins : list input),
     max_retries st0 = 1%Z ->
     Forall (fun c => (0 <= max_retries (snd c))%Z
                      /\ (fst c = Node.tables_selector -> max_retries (snd c) = 1%Z))
            (run_trace ins (Node.tables_selector, st0))) /\
  (forall (st : State) (i : input),
     sufficient_info st <> None -> max_retries st = 0%Z ->
     edge Node.sufficient_tables i st = Ok Node.query_gen).
Proof.
  split; [exact selector_max_retries|]. split; [|split].
  - intros i n n' st st' Hstep Hs Ht. unfold step in Hstep.
    destruct (exec_node n i st) as [[p|e]|] eqn:He; try discriminate.
    destruct (edge n i (apply_patch st p)); try discriminate.
    injection Hstep as _ <-. simpl.
    rewrite (exec_node_keeps_budget n i st p Ht Hs He). reflexivity.
  - intros st0 ins H1.
    eapply Forall_impl; [apply budget_inv_trace; exact H1|].
    intros [n st] Hinv. unfold budget_inv in Hinv. cbn [fst snd] in Hinv |- *.
    destruct n; try contradiction; split; try lia; intros Heq; try discriminate; lia.
  - intros st i Hsome H0. simpl. unfold continue_sufficient_tables.
    destruct (sufficient_info st) as [b|]; [|contradiction].
    rewrite H0. destruct b; reflexivity.
Qed.

Lemma sufficiency_loop_retry_budget_witness :
  Forall (fun c => (0 <= max_retries (snd c))%Z
                   /\ (fst c = Node.tables_selector -> max_retries (snd c) = 1%Z))
         (run_trace loop_run (Node.tables_selector, loop_state0)) /\
  max_retries (apply_patch loop_state0 (info_sql_database_tool_call loop_state0)) = 1%Z /\
  edge Node.sufficient_tables INone (mkState po_question [] "" (Some false) "" 0 "")
  = Ok Node.query_gen.
Proof.
  destruct sufficiency_loop_retry_budget as [_ [H2 [H3 H4]]].
  split; [apply H3; reflexivity|]. split.
  - apply (H2 INone Node.info_sql_database_tool_call Node.info_sql_database_tool
              loop_state0 (apply_patch loop_state0 (info_sql_database_tool_call loop_state0)));
      [reflexivity | discriminate | discriminate].
  - apply H4; [discriminate | reflexivity].
Defined.

(** C6 (counterexample): on the second pass the selector's proposal
    still names [purchase_orders], chosen on the first pass; the graph
    forwards it to the schema tool unchanged. *)
Lemma selector_reproposes_selected_table :
  exists st1 st2,
    run (take 1 loop_run) (Node.tables_selector, loop_state0) = Some (Ok (Node.get_schema_tool, st1))
    /\ run (take 5 loop_run) (Node.tables_selector, loop_state0) = Some (Ok (Node.get_schema_tool, st2))
    /\ last_message (messages st1) = Some (select_tables ["purchase_orders"])
    /\ last_message (messages st2) = Some (select_tables ["purchase_orders"; "suppliers"])
    /\ "purchase_orders" ∈ proposed_tables (select_tables ["purchase_orders"])
    /\ "purchase_orders" ∈ proposed_tables (select_tables ["purchase_orders"; "suppliers"]).
Proof.
  eexists; eexists.
  split; [vm_compute; reflexivity|]. split; [vm_compute; reflexivity|].
  split; [vm_compute; reflexivity|]. split; [vm_compute; reflexivity|].
  split; apply list_elem_of_In; simpl; auto.
Qed.

(** C6 (as the code does it): the selector appends the model's
    tool-calling answer as it is, whatever was selected before; the only
    de-duplication is in the contextualiser, whose prompt lists each
    distinct tool output of the message log exactly once. *)
Theorem selector_forwards_contextualiser_dedups :
  (forall (st : State) (r : message),
     last_message (messages (apply_patch st (selector st r))) = Some r) /\
  (forall st : State,
     NoDup (unique_tool_calls (messages st)) /\
     (forall x, x ∈ unique_tool_calls (messages st) <-> x ∈ tool_contents (messages st))).
Proof.
  split.
  - intros st r. apply last_message_apply_patch. reflexivity.
  - intros st. split; [apply NoDup_remove_dups|]. intros x. apply elem_of_remove_dups.
Qed.

Lemma step_messages_prefix (i : input) (c c' : config) :
  step i c = Some (Ok c') -> messages (snd c) `prefix_of` messages (snd c').
Proof.
  destruct c as [n st]. unfold step.
  destruct (exec_node n i st) as [[p|e]|]; try discriminate.
  destruct (edge n i (apply_patch st p)); try discriminate.
  intros H. injection H as <-. simpl. apply prefix_app_r. reflexivity.
Qed.

Lemma run_trace_from_prefix (ins : list input) (c ck : config) :
  ck ∈ run_trace ins c -> messages (snd c) `prefix_of` messages (snd ck).
Proof.
  revert c. induction ins as [|i ins IH]; intros c Hin; simpl in Hin;
    apply elem_of_cons in Hin as [->|Hin]; try reflexivity.
  - apply elem_of_nil in Hin. contradiction.
  - destruct (step i c) as [[c'|e]|] eqn:Hs; try (apply elem_of_nil in Hin; contradiction).
    transitivity (messages (snd c')); [eapply step_messages_prefix; eauto | apply IH, Hin].
Qed.

Lemma run_trace_prefix (ins : list input) (c : config) (j k : nat) (cj ck : config) :
  j <= k -> run_trace ins c !! j = Some cj -> run_trace ins c !! k = Some ck ->
  messages (snd cj) `prefix_of` messages (snd ck).
Proof.
  revert c j k. induction ins as [|i ins IH]; intros c j k Hjk Hj Hk.
  - simpl in Hj, Hk. destruct j as [|j]; [|destruct j; discriminate].
    destruct k as [|k]; [|destruct k; discriminate].
    simpl in Hj, Hk. injection Hj as <-. injection Hk as <-. reflexivity.
  - simpl in Hj, Hk. destruct j as [|j].
    + simpl in Hj. injection Hj as <-.
      destruct k as [|k]; [simpl in Hk; injection Hk as <-; reflexivity|].
      simpl in Hk. destruct (step i c) as [[c'|e]|] eqn:Hs; try discriminate.
      transitivity (messages (snd c')); [eapply step_messages_prefix; eauto|].
      apply (run_trace_from_prefix ins c' ck). eapply list_elem_of_lookup_2; eauto.
    + destruct k as [|k]; [lia|]. simpl in Hj, Hk.
      destruct (step i c) as [[c'|e]|] eqn:Hs; try discriminate.
      eapply (IH c' j k); eauto. lia.
Qed.

Lemma unique_tool_calls_prefix (l1 l2 : list message) (x : string) :
  l1 `prefix_of` l2 -> x ∈ unique_tool_calls l1 -> x ∈ unique_tool_calls l2.
Proof.
  intros [l3 ->]. unfold unique_tool_calls, tool_contents.
  rewrite !elem_of_remove_dups, omap_app, elem_of_app. tauto.
Qed.

(** C7 (counterexample): the second summary of the contextualiser does
    not contain the first; [information] is simply replaced. *)
Lemma contextualiser_drops_previous_summary :
  exists st1 st2,
    run (take 3 loop_run) (Node.tables_selector, loop_state0) = Some (Ok (Node.sufficient_tables, st1))
    /\ run (take 7 loop_run) (Node.tables_selector, loop_state0) = Some (Ok (Node.sufficient_tables, st2))
    /\ information st1 = summary_1
    /\ information st2 = summary_2
    /\ String.index 0 summary_1 summary_2 = None.
Proof.
  eexists; eexists.
  split; [vm_compute; reflexivity|]. split; [vm_compute; reflexivity|].
  split; [reflexivity|]. split; [reflexivity|]. vm_compute. reflexivity.
Qed.

(** C7 (as the code does it): the contextualiser's output is the model's
    latest answer, replacing the earlier one; what only grows along a run
    is its input, the set of distinct tool outputs in the message log. *)
Theorem contextualiser_input_grows :
  (forall (st : State) (r : message),
     information (apply_patch st (contextualiser st r)) = content r) /\
  (forall (ins : list input) (c : config) (j k : nat) (cj ck : config) (x : string),
     j <= k -> run_trace ins c !! j = Some cj -> run_trace ins c !! k = Some ck ->
     x ∈ unique_tool_calls (messages (snd cj)) -> x ∈ unique_tool_calls (messages (snd ck))).
Proof.
  split; [reflexivity|].
  intros ins c j k cj ck x Hjk Hj Hk Hx.
  eapply unique_tool_calls_prefix; [eapply run_trace_prefix; eauto | exact Hx].
Qed.

Lemma contextualiser_input_grows_witness :
  exists cj ck,
    run_trace loop_run (Node.tables_selector, loop_state0) !! 3 = Some cj
    /\ run_trace loop_run (Node.tables_selector, loop_state0) !! 7 = Some ck
    /\ tool_output (schema_run (schema_tool_call "purchase_orders")) ∈ unique_tool_calls (messages (snd cj))
    /\ tool_output (schema_run (schema_tool_call "purchase_orders")) ∈ unique_tool_calls (messages (snd ck)).
Proof.
  eexists; eexists.
  split; [vm_compute; reflexivity|]. split; [vm_compute; reflexivity|].
  assert (Hx : tool_output (schema_run (schema_tool_call "purchase_orders"))
               ∈ unique_tool_calls (messages (snd (Node.sufficient_tables,
                   apply_patch (apply_patch (apply_patch loop_state0
                     (selector loop_state0 (select_tables ["purchase_orders"])))
                     (msgs_patch [ToolMessage (tool_output (schema_run (schema_tool_call "purchase_orders")))
                                              ("call_" +:+ "purchase_orders")]))
                     (contextualiser loop_state0 (AIMessage summary_1 [])))))).
  { apply (bool_decide_unpack _). vm_compute. reflexivity. }
  split.
  - exact Hx.
  - eapply (proj2 contextualiser_input_grows loop_run (Node.tables_selector, loop_state0) 3 7);
      [lia | vm_compute; reflexivity | vm_compute; reflexivity | exact Hx].
Defined.

Lemma tool_node_raise (run : tool_call -> tool_outcome) (st : State) (c : string)
  (tcs : list tool_call) (e : string) :
  last_message (messages st) = Some (AIMessage c tcs) ->
  first_raise (map run tcs) = Some e ->
  tool_node_with_fallback run st = Ok (msgs_patch (handle_tool_error e tcs)).
Proof. intros Hl He. unfold tool_node_with_fallback. rewrite Hl. simpl. rewrite He. reflexivity. Qed.

(** C8 (as the code does it): when the line or bar renderer raises, the
    fallback of the tool node turns the exception into [Error:] tool
    messages, the session goes on to [final_answer] and ends normally;
    [final_answer] emits the SQL statement [query], as it does when
    rendering succeeds, and the error messages stay in the log. *)
Theorem chart_render_failure_absorbed (st : State) (ct c : string) (tcs : list tool_call)
  (render : tool_call -> tool_outcome) (e : string) :
  (ct = "line" \/ ct = "bar") ->
  first_raise (map render tcs) = Some e ->
  exists st',
    run [IChart ct (AIMessage c tcs); ITools render; INone] (Node.chart_generation, st)
    = Some (Ok (Node.END, st'))
    /\ messages st' = (messages st ++ [AIMessage c tcs] ++ handle_tool_error e tcs
                       ++ [AIMessage (query st) []])%list
    /\ last_message (messages st') = Some (AIMessage (query st) []).
Proof.
  intros Hct He.
  set (st1 := apply_patch st (chart_generation st ct (AIMessage c tcs))).
  set (st2 := apply_patch st1 (msgs_patch (handle_tool_error e tcs))).
  set (st3 := apply_patch st2 (final_answer st2)).
  assert (Hl1 : last_message (messages st1) = Some (AIMessage c tcs)).
  { apply last_message_apply_patch. unfold chart_generation.
    destruct Hct as [-> | ->]; reflexivity. }
  set (target := if String.eqb ct "line" then Node.line_graph_tool else Node.bar_graph_tool).
  assert (E1 : step (IChart ct (AIMessage c tcs)) (Node.chart_generation, st)
               = Some (Ok (target, st1))).
  { unfold target, st1. destruct Hct as [-> | ->]; reflexivity. }
  assert (E2 : step (ITools render) (target, st1) = Some (Ok (Node.final_answer, st2))).
  { unfold target. destruct (String.eqb ct "line"); unfold step; simpl exec_node;
      rewrite (tool_node_raise render st1 c tcs e Hl1 He); reflexivity. }
  exists st3. split; [| split].
  - cbn [run]. rewrite E1, E2. reflexivity.
  - unfold st3, st2, st1. destruct Hct as [-> | ->]; simpl; rewrite <- !app_assoc; reflexivity.
  - apply last_message_apply_patch. reflexivity.
Qed.

Lemma chart_render_failure_absorbed_witness :
  exists st',
    run [IChart "line" (AIMessage "" [line_call]); ITools failing_render; INone]
        (Node.chart_generation, initial_state po_question)
    = Some (Ok (Node.END, st'))
    /\ messages st' = (messages (initial_state po_question) ++ [AIMessage "" [line_call]]
                       ++ handle_tool_error "ValueError('x and y must have same first dimension')" [line_call]
                       ++ [AIMessage (query (initial_state po_question)) []])%list
    /\ last_message (messages st') = Some (AIMessage (query (initial_state po_question)) []).
Proof.
  apply (chart_render_failure_absorbed (initial_state po_question) "line" "" [line_call]
           failing_render "ValueError('x and y must have same first dimension')").
  - left. reflexivity.
  - reflexivity.
Defined.

(** C8 (counterexample): in scenario B followed by a line chart whose
    renderer raises, the session ends normally but its final message is
    the SQL statement, not the textual result [[(42,)]] of the query. *)
Lemma chart_failure_final_message_is_sql :
  exists st,
    run scenario_b_with_line_chart (Node.START, initial_state po_question) = Some (Ok (Node.END, st))
    /\ last_message (messages st) = Some (AIMessage good_sql [])
    /\ ToolMessage (db_query_tool (scenario_b_db good_sql)) "query_execution" ∈ messages st
    /\ good_sql <> db_query_tool (scenario_b_db good_sql).
Proof.
  eexists. split; [vm_compute; reflexivity|].
  split; [vm_compute; reflexivity|].
  split; [apply (bool_decide_unpack _); vm_compute; reflexivity|].
  vm_compute. discriminate.
Qed.

(* ------------------------------------------------------------------ *)
(** ** Further properties of the code *)

Lemma string_app_cons (x : ascii) (a b : string) : String x a +:+ b = String x (a +:+ b).
Proof. reflexivity. Qed.

Lemma string_app_assoc (a b c : string) : (a +:+ b) +:+ c = a +:+ (b +:+ c).
Proof.
  induction a as [|x a IH]; [reflexivity|].
  rewrite !string_app_cons, IH. reflexivity.
Qed.

Lemma string_app_nil_r (a : string) : a +:+ "" = a.
Proof.
  induction a as [|x a IH]; [reflexivity|].
  rewrite string_app_cons, IH. reflexivity.
Qed.

(** X1: the table-listing tool node answers the call of
    [info_sql_database_tool_call] with one tool message carrying the
    tool's output and moves on to the table selector; the output starts
    with its header, so a database failure is passed on as ordinary text,
    never as an [Error:] payload. *)
Theorem info_tool_failure_not_error_tagged (st : State) (o : db_outcome) :
  run [INone; ITools (run_info_sql_database_tool o)] (Node.info_sql_database_tool_call, st)
  = Some (Ok (Node.tables_selector,
              apply_patch (apply_patch st (info_sql_database_tool_call st))
                          (msgs_patch [ToolMessage (info_sql_database_tool o) tool_abcd123])))
  /\ startswith (info_sql_database_tool o) "Error:" = false
  /\ (forall m : string, info_sql_database_tool (DbFailure m)
        = "Tables and Descriptions:" +:+ nl +:+ nl +:+ ("Error: " +:+ m)).
Proof.
  split; [|split; [reflexivity | intros m; reflexivity]].
  set (st1 := apply_patch st (info_sql_database_tool_call st)).
  assert (E1 : step INone (Node.info_sql_database_tool_call, st)
               = Some (Ok (Node.info_sql_database_tool, st1))) by reflexivity.
  assert (Hl : last_message (messages st1)
               = Some (AIMessage "" [mkToolCall "info_sql_database_tool" [] tool_abcd123]))
    by (apply last_message_apply_patch; reflexivity).
  assert (E2 : step (ITools (run_info_sql_database_tool o)) (Node.info_sql_database_tool, st1)
               = Some (Ok (Node.tables_selector,
                           apply_patch st1 (msgs_patch [ToolMessage (info_sql_database_tool o) tool_abcd123])))).
  { unfold step. simpl exec_node. unfold tool_node_with_fallback. rewrite Hl. reflexivity. }
  cbn [run]. rewrite E1, E2. reflexivity.
Qed.

(** *** The comment stripping of [get_schema_tool] *)

Lemma after_comment_close_shorter (s r : string) :
  after_comment_close s = Some r -> String.length r < String.length s.
Proof.
  induction s as [|c1 rest IH]; simpl; [discriminate|].
  destruct rest as [|c2 r']; [discriminate|].
  destruct (Ascii.eqb c1 "*"%char && Ascii.eqb c2 "/"%char).
  - intros [= <-]. simpl. lia.
  - intros H. specialize (IH H). simpl in *. lia.
Qed.

Lemma comment_at_shorter (s r : string) :
  comment_at s = Some r -> String.length r < String.length s.
Proof.
  destruct s as [|c1 [|c2 t]]; simpl; try discriminate.
  destruct (Ascii.eqb c1 "/"%char && Ascii.eqb c2 "*"%char); [|discriminate].
  intros H. apply after_comment_close_shorter in H. lia.
Qed.

Lemma strip_fuel_enough (f1 f2 : nat) (s : string) :
  String.length s <= f1 -> String.length s <= f2 ->
  strip_block_comments_fuel f1 s = strip_block_comments_fuel f2 s.
Proof.
  revert f2 s. induction f1 as [|f1 IH]; intros f2 s H1 H2.
  - destruct s; simpl in H1; [|lia]. destruct f2; reflexivity.
  - destruct f2 as [|f2]; [destruct s; simpl in H2; [reflexivity | lia]|].
    simpl. destruct (comment_at s) as [r|] eqn:Hc.
    + apply comment_at_shorter in Hc. apply IH; lia.
    + destruct s as [|c rest]; [reflexivity|]. simpl in H1, H2. f_equal. apply IH; lia.
Qed.

Lemma strip_comment_some (s r : string) :
  comment_at s = Some r -> strip_block_comments s = strip_block_comments r.
Proof.
  intros Hc. unfold strip_block_comments.
  destruct s as [|c rest]; [discriminate|].
  cbn [String.length strip_block_comments_fuel]. rewrite Hc.
  apply strip_fuel_enough; [|lia]. apply comment_at_shorter in Hc. simpl in Hc. lia.
Qed.

Lemma strip_comment_none (c : ascii) (rest : string) :
  comment_at (String c rest) = None ->
  strip_block_comments (String c rest) = String c (strip_block_comments rest).
Proof.
  intros Hc. unfold strip_block_comments.
  cbn [String.length strip_block_comments_fuel]. rewrite Hc. reflexivity.
Qed.

Lemma has_pair_cons2 (a b c1 c2 : ascii) (r : string) :
  has_pair a b (String c1 (String c2 r))
  = (Ascii.eqb c1 a && Ascii.eqb c2 b) || has_pair a b (String c2 r).
Proof. reflexivity. Qed.

Lemma has_pair_tail (a b c : ascii) (r : string) :
  has_pair a b (String c r) = false -> has_pair a b r = false.
Proof.
  destruct r as [|c2 r]; [reflexivity|]. rewrite has_pair_cons2.
  intros H. apply orb_false_iff in H. tauto.
Qed.

Lemma after_close_cons2 (c1 c2 : ascii) (r : string) :
  after_comment_close (String c1 (String c2 r))
  = if Ascii.eqb c1 "*"%char && Ascii.eqb c2 "/"%char then Some r
    else after_comment_close (String c2 r).
Proof. reflexivity. Qed.

Lemma comment_at_cons2 (c1 c2 : ascii) (r : string) :
  comment_at (String c1 (String c2 r))
  = if Ascii.eqb c1 "/"%char && Ascii.eqb c2 "*"%char then after_comment_close r else None.
Proof. reflexivity. Qed.

Lemma after_close_none (s : string) :
  has_pair "*"%char "/"%char s = false -> after_comment_close s = None.
Proof.
  induction s as [|c1 rest IH]; intros H; [reflexivity|].
  destruct rest as [|c2 r]; [reflexivity|].
  rewrite has_pair_cons2 in H. apply orb_false_iff in H as [H1 H2].
  rewrite after_close_cons2, H1. apply IH, H2.
Qed.

Lemma after_close_app (b s2 : string) :
  has_pair "*"%char "/"%char b = false ->
  after_comment_close (b +:+ "*/" +:+ s2) = Some s2.
Proof.
  induction b as [|c b IH]; intros H; [reflexivity|].
  destruct b as [|c2 b'].
  - change (String c EmptyString +:+ "*/" +:+ s2) with (String c (String "*" (String "/" s2))).
    rewrite after_close_cons2, andb_false_r. apply IH. reflexivity.
  - change (String c (String c2 b') +:+ "*/" +:+ s2)
      with (String c (String c2 (b' +:+ "*/" +:+ s2))).
    rewrite has_pair_cons2 in H. apply orb_false_iff in H as [H1 H2].
    rewrite after_close_cons2, H1. apply IH, H2.
Qed.

Lemma strip_no_opener (s : string) :
  has_pair "/"%char "*"%char s = false -> strip_block_comments s = s.
Proof.
  induction s as [|c rest IH]; intros H; [reflexivity|].
  rewrite strip_comment_none, IH; [reflexivity | eapply has_pair_tail; exact H |].
  destruct rest as [|c2 r]; [reflexivity|].
  rewrite comment_at_cons2. rewrite has_pair_cons2 in H.
  apply orb_false_iff in H as [-> _]. reflexivity.
Qed.

Lemma strip_no_closer (s : string) :
  has_pair "*"%char "/"%char s = false -> strip_block_comments s = s.
Proof.
  induction s as [|c rest IH]; intros H; [reflexivity|].
  pose proof (has_pair_tail _ _ _ _ H) as Hr.
  rewrite strip_comment_none, IH; [reflexivity | exact Hr |].
  destruct rest as [|c2 r]; [reflexivity|].
  rewrite comment_at_cons2. destruct (_ && _); [|reflexivity].
  apply after_close_none. eapply has_pair_tail. exact Hr.
Qed.

Lemma strip_prefix (s1 rest : string) :
  has_pair "/"%char "*"%char s1 = false ->
  strip_block_comments (s1 +:+ String "/" rest) = s1 +:+ strip_block_comments (String "/" rest).
Proof.
  induction s1 as [|c s1 IH]; intros H; [reflexivity|].
  change (String c s1 +:+ String "/" rest) with (String c (s1 +:+ String "/" rest)).
  rewrite strip_comment_none.
  - rewrite string_app_cons. f_equal. apply IH. eapply has_pair_tail. exact H.
  - destruct s1 as [|c2 s1'].
    + change (EmptyString +:+ String "/" rest) with (String "/" rest).
      rewrite comment_at_cons2, andb_false_r. reflexivity.
    + change (String c2 s1' +:+ String "/" rest) with (String c2 (s1' +:+ String "/" rest)).
      rewrite comment_at_cons2. rewrite has_pair_cons2 in H.
      apply orb_false_iff in H as [-> _]. reflexivity.
Qed.

Lemma strip_comment_block (s1 b s2 : string) :
  has_pair "/"%char "*"%char s1 = false -> has_pair "*"%char "/"%char b = false ->
  strip_block_comments (s1 +:+ "/*" +:+ b +:+ "*/" +:+ s2) = s1 +:+ strip_block_comments s2.
Proof.
  intros H1 Hb.
  change ("/*" +:+ b +:+ "*/" +:+ s2) with (String "/" (String "*" (b +:+ "*/" +:+ s2))).
  rewrite strip_prefix by exact H1. f_equal.
  apply strip_comment_some. exact (after_close_app b s2 Hb).
Qed.

(** X2: [get_schema_tool] removes a block comment (the sample rows that
    langchain appends to a [CREATE TABLE] statement) from the schema text
    it returns, keeping what comes before it and going on after it; its
    answer starts with its own header, so it is never an [Error:]
    payload. *)
Theorem get_schema_tool_strips_comment_block (t s1 b s2 r : string) :
  has_pair "/"%char "*"%char s1 = false -> has_pair "*"%char "/"%char b = false ->
  get_schema_tool t (s1 +:+ "/*" +:+ b +:+ "*/" +:+ s2)
  = "Selected Table " +:+ t +:+ nl +:+ nl +:+ "Schema: " +:+ s1 +:+ strip_block_comments s2
  /\ startswith (get_schema_tool t r) "Error:" = false.
Proof.
  intros H1 Hb. split; [|reflexivity].
  unfold get_schema_tool. rewrite strip_comment_block by assumption. reflexivity.
Qed.

(** X3: the non-greedy pattern [/\*.*?\*/] only removes complete
    comments: a text with no opener, or with no closer, comes back
    unchanged, and an opener that is never closed is kept with everything
    after it. *)
Theorem strip_block_comments_keeps_uncommented (s s1 s2 : string) :
  (has_pair "/"%char "*"%char s = false \/ has_pair "*"%char "/"%char s = false ->
   strip_block_comments s = s) /\
  (has_pair "/"%char "*"%char s1 = false -> has_pair "*"%char "/"%char s2 = false ->
   strip_block_comments (s1 +:+ "/*" +:+ s2) = s1 +:+ "/*" +:+ s2).
Proof.
  split.
  - intros [H|H]; [apply strip_no_opener | apply strip_no_closer]; exact H.
  - intros H1 H2.
    change ("/*" +:+ s2) with (String "/" (String "*" s2)).
    rewrite strip_prefix by exact H1. f_equal.
    rewrite strip_comment_none by exact (after_close_none s2 H2).
    rewrite strip_comment_none; [rewrite strip_no_closer by exact H2; reflexivity|].
    destruct s2 as [|c r]; reflexivity.
Qed.

(** *** The exemplar lookup of [get_context] *)

Lemma foldl_insert_lookup (ctx : list doc) (m : gmap Z string) (id : Z) :
  foldl (fun m d => <[doc_id d := doc_context d]> m) m ctx !! id
  = match last (filter (fun d => doc_id d = id) ctx) with
    | Some d => Some (doc_context d)
    | None => m !! id
    end.
Proof.
  revert m. induction ctx as [|d ctx IH]; intros m; [reflexivity|].
  simpl. rewrite IH, filter_cons. case_decide as Hd.
  - rewrite last_cons. destruct (last (filter _ ctx)); [reflexivity|].
    subst id. rewrite lookup_insert_eq. reflexivity.
  - destruct (last (filter _ ctx)); [reflexivity|].
    rewrite lookup_insert_ne; [reflexivity | exact Hd].
Qed.

(** X4: in the dict [id_to_context] of [get_context], an id maps to the
    context of the last retrieved exemplar carrying it (a later duplicate
    overwrites an earlier one), and ids of no retrieved exemplar are
    absent. *)
Theorem id_to_context_last_wins (context : list doc) (id : Z) :
  build_id_to_context context !! id
  = doc_context <$> last (filter (fun d => doc_id d = id) context).
Proof.
  unfold build_id_to_context. rewrite foldl_insert_lookup.
  destruct (last _); [reflexivity|]. apply lookup_empty.
Qed.

Lemma collect_information_forall2 (m : gmap Z string) (ids : list Z) (cs : list string)
  (acc : string) :
  Forall2 (fun id c => m !! id = Some c) ids cs ->
  collect_information m ids acc = Ok (acc +:+ foldr (fun c r => c +:+ nl +:+ nl +:+ r) "" cs).
Proof.
  intros H. revert acc. induction H as [|id c ids cs Hc H IH]; intros acc; simpl.
  - rewrite string_app_nil_r. reflexivity.
  - rewrite Hc, IH, !string_app_assoc. reflexivity.
Qed.

(** X5: when the retrieval returns exemplars and every id chosen by the
    reranker is among them, [get_context] joins the chosen contexts in
    the reranker's order, each followed by a blank line, stores the text
    in [information] and logs it; the session then goes on to
    [query_gen_with_context], or ends when the reranker chose no id. *)
Theorem get_context_collects_chosen (st : State) (context : list doc) (ids : list Z)
  (cs : list string) :
  context <> [] ->
  Forall2 (fun id c => build_id_to_context context !! id = Some c) ids cs ->
  step (IContext context ids) (Node.get_context, st)
  = Some (Ok (match ids with [] => Node.END | _ => Node.query_gen_with_context end,
              apply_patch st
                (mkPatch [AIMessage ("Retrieved Context: "
                                     +:+ foldr (fun c r => c +:+ nl +:+ nl +:+ r) "" cs) []]
                         None (Some (foldr (fun c r => c +:+ nl +:+ nl +:+ r) "" cs))
                         None None None None))).
Proof.
  intros Hne H2.
  assert (Hc : collect_information (build_id_to_context context) ids ""
               = Ok (foldr (fun c r => c +:+ nl +:+ nl +:+ r) "" cs)).
  { rewrite (collect_information_forall2 _ _ _ _ H2). reflexivity. }
  unfold step. cbn [exec_node]. unfold get_context.
  destruct context as [|d ctx]; [congruence|]. rewrite Hc.
  inversion H2 as [|id c ids' cs' Hid Hrest]; subst; [reflexivity|].
  destruct c; reflexivity.
Qed.

(** *** One execution round *)

Lemma db_query_tool_rows_not_error (rs : list (list string)) :
  startswith (db_query_tool (DbRows rs)) "Error:" = false.
Proof.
  rewrite db_query_tool_rows. cbv zeta.
  destruct rs as [|r rs]; [reflexivity|].
  unfold run_no_throw. destruct (Nat.ltb 2000 _); reflexivity.
Qed.

(** X7: from [get_query_execution], one round sends the statement in
    [query] to [db_query_tool] under the call id [query_execution] and
    logs the call and the tool's answer; [continue_query_gen] then goes
    on to the chart stage when the database returned rows and back to
    [query_gen] when it failed, with the budget untouched.  After a
    failure the generator's prompt is the question, the gathered
    information and the [Error:] tool message. *)
Theorem execution_round_routes (st : State) (db : string -> db_outcome) :
  (0 <= max_retries st)%Z ->
  exists st',
    run [INone; IDb db] (Node.get_query_execution, st)
    = Some (Ok (match db (query st) with
                | DbRows _ => Node.chart_generation
                | DbFailure _ => Node.query_gen
                end, st'))
    /\ messages st'
       = (messages st
          ++ [AIMessage "" [mkToolCall "db_query_tool" [("query", query st)] "query_execution"];
              ToolMessage (db_query_tool (db (query st))) "query_execution"])%list
    /\ max_retries st' = max_retries st
    /\ (forall m, db (query st) = DbFailure m ->
          query_gen_prompt_messages st'
          = [HumanMessage (question st); AIMessage (information st) [];
             ToolMessage (query_failed_banner +:+ ("Error: " +:+ m)) "query_execution"]).
Proof.
  intros Hmax.
  set (call := mkToolCall "db_query_tool" [("query", query st)] "query_execution").
  set (st1 := apply_patch st (get_query_execution st)).
  set (tm := ToolMessage (db_query_tool (db (query st))) "query_execution").
  set (st2 := apply_patch st1 (msgs_patch [tm])).
  exists st2.
  assert (Hl1 : last_message (messages st1) = Some (AIMessage "" [call]))
    by (apply last_message_apply_patch; reflexivity).
  assert (Hl2 : last_message (messages st2) = Some tm)
    by (apply last_message_apply_patch; reflexivity).
  assert (E1 : step INone (Node.get_query_execution, st) = Some (Ok (Node.query_execute, st1)))
    by reflexivity.
  assert (Hm2 : max_retries st2 = max_retries st) by reflexivity.
  split; [|split; [|split]].
  - assert (E2 : step (IDb db) (Node.query_execute, st1)
                 = Some (Ok (match db (query st) with
                             | DbRows _ => Node.chart_generation
                             | DbFailure _ => Node.query_gen
                             end, st2))).
    { unfold step. simpl exec_node. unfold tool_node_with_fallback. rewrite Hl1.
      change (map (run_db_query_tool db) [call]) with [ToolOk (db_query_tool (db (query st)))].
      simpl first_raise. cbv beta iota. simpl zip_with. fold tm. fold st2.
      unfold edge, continue_query_gen. rewrite Hl2, Hm2.
      destruct (Z.ltb_spec (max_retries st) 0); [lia|].
      unfold tm, content. destruct (db (query st)) as [rs|m].
      - rewrite db_query_tool_rows_not_error. reflexivity.
      - rewrite db_query_tool_failure, banner_is_error. reflexivity. }
    cbn [run]. rewrite E1, E2. reflexivity.
  - unfold st2, st1. simpl. rewrite <- app_assoc. reflexivity.
  - exact Hm2.
  - intros m Hm. unfold query_gen_prompt_messages. rewrite Hl2. unfold tm, content.
    rewrite Hm, db_query_tool_failure, banner_is_error. reflexivity.
Qed.

(** *** Where a session can be *)

Lemma session_inv_step (i : input) (c c' : config) :
  session_inv c -> step i c = Some (Ok c') -> session_inv c'.
Proof.
  destruct c as [n st]. intros Hinv Hstep. unfold step in Hstep.
  destruct (exec_node n i st) as [[p|e]|] eqn:He; try discriminate.
  destruct (edge n i (apply_patch st p)) as [n'|e] eqn:Hedge; try discriminate.
  injection Hstep as <-.
  pose proof (edge_successors _ _ _ _ Hedge) as Hsucc.
  destruct (decide (n = Node.transform_user_question)) as [->|Hnt].
  - simpl in Hsucc. apply list_elem_of_singleton in Hsucc as ->.
    destruct i; try discriminate. simpl in He. injection He as <-. reflexivity.
  - destruct (decide (n = Node.tables_selector)) as [->|Hns]; [cbn in Hinv; contradiction|].
    assert (Hm : max_retries (apply_patch st p) = max_retries st).
    { simpl. rewrite (exec_node_keeps_budget n i st p Hnt Hns He). reflexivity. }
    destruct n; unfold session_inv in Hinv; cbn [fst snd] in Hinv; try contradiction; try congruence;
      simpl in Hsucc; repeat rewrite elem_of_cons, ?elem_of_nil in Hsucc;
      repeat match goal with
             | H : _ \/ _ |- _ => destruct H as [->|H]
             | H : False |- _ => contradiction
             end;
      unfold session_inv; simpl fst; simpl snd; rewrite ?Hm; try assumption; exact I.
Qed.

Lemma session_inv_trace (ins : list input) (c : config) :
  session_inv c -> Forall session_inv (run_trace ins c).
Proof.
  revert c. induction ins as [|i ins IH]; intros c Hc; simpl.
  - constructor; [exact Hc | constructor].
  - constructor; [exact Hc|].
    destruct (step i c) as [[c'|e]|] eqn:Hs; try constructor.
    apply IH. eapply session_inv_step; eauto.
Qed.

Lemma edge_query_execute_end (i : input) (st : State) :
  edge Node.query_execute i st = Ok Node.END -> (max_retries st < 0)%Z.
Proof.
  cbn [edge]. unfold bind_res, continue_query_gen.
  destruct (last_message (messages st)) as [m|]; [|discriminate].
  destruct (Z.ltb_spec (max_retries st) 0) as [Hlt|Hge]; [auto|].
  destruct (startswith (content m) "Error:"); intros H; simpl in H; discriminate.
Qed.

(** X8: in every run from [START], on any state, the retry budget is 1
    at every node after [transform_user_question] (only that node and
    the unreachable table selector write it), so the [failed] edge of
    [query_execute] to [END], which needs a negative budget, is never
    taken. *)
Theorem retry_budget_fixed_failed_unreachable (ins : list input) (st0 : State) :
  Forall (fun c => fst c ∉ [Node.START; Node.react_agent; Node.transform_user_question; Node.END]
                   -> max_retries (snd c) = 1%Z)
         (run_trace ins (Node.START, st0))
  /\ (forall (c : config) (i : input) (st' : State),
        c ∈ run_trace ins (Node.START, st0) -> fst c = Node.query_execute ->
        step i c <> Some (Ok (Node.END, st'))).
Proof.
  pose proof (session_inv_trace ins (Node.START, st0) I) as Hall.
  split.
  - eapply Forall_impl; [exact Hall|]. intros [n st] Hinv Hn.
    destruct n; cbn in *; try contradiction; try exact Hinv; exfalso; apply Hn; set_solver.
  - intros c i st' Hc Hn Hstep.
    rewrite Forall_forall in Hall. specialize (Hall c Hc).
    destruct c as [n st]. cbn [fst] in Hn. subst n. cbn in Hall.
    unfold step in Hstep.
    destruct (exec_node Node.query_execute i st) as [[p|e]|] eqn:He; try discriminate.
    destruct (edge Node.query_execute i (apply_patch st p)) as [n'|e] eqn:Hedge; try discriminate.
    injection Hstep as -> _.
    apply edge_query_execute_end in Hedge.
    assert (Hm : max_retries (apply_patch st p) = max_retries st).
    { simpl. rewrite (exec_node_keeps_budget Node.query_execute i st p ltac:(discriminate) ltac:(discriminate) He).
      reflexivity. }
    lia.
Qed.

(** X9: no run from [START], on any state and any inputs, reaches a node
    of the schema-discovery path ([info_sql_database_tool_call] through
    [sufficient_tables]): the only edge into it is the label
    [info_sql_database_tool_call] of [get_context], which the path map
    sends to [END]. *)
Theorem schema_discovery_unreachable (ins : list input) (st0 : State) :
  Forall (fun c => fst c ∉ schema_discovery_nodes) (run_trace ins (Node.START, st0)).
Proof.
  eapply Forall_impl; [exact (session_inv_trace ins (Node.START, st0) I)|].
  intros [n st] Hinv. unfold schema_discovery_nodes.
  destruct n; cbn in Hinv |- *; try contradiction;
    rewrite !elem_of_cons, elem_of_nil; intuition discriminate.
Qed.

Lemma find_none_intro {A} (f : A -> bool) (l : list A) :
  (forall x, In x l -> f x = false) -> find f l = None.
Proof.
  induction l as [|x l IH]; intros H; simpl; [reflexivity|].
  rewrite (H x (or_introl eq_refl)). apply IH. intros y Hy. apply H. right. exact Hy.
Qed.

(** X10: [update_information] never finds the checkpoint it forks from:
    in the history of a thread made of sessions run from [START], no
    snapshot has [sufficient_tables] as its next node, so [fork_cfg] is
    [None]. *)
Theorem update_information_finds_no_fork (sessions : list (list input * State)) :
  update_information_fork (thread_history sessions) = None.
Proof.
  unfold update_information_fork, thread_history. apply find_none_intro.
  intros [n st] Hin. apply in_rev in Hin.
  apply in_concat in Hin as [l [Hl Hin]].
  apply in_map_iff in Hl as [[ins st0] [<- _]].
  pose proof (session_inv_trace ins (Node.START, st0) I) as Hall.
  rewrite Forall_forall in Hall. apply list_elem_of_In in Hin. specialize (Hall _ Hin).
  destruct n; cbn in Hall; try contradiction; reflexivity.
Qed.

(** *** The router *)

(** X12: the router classifies the first message of the thread: once the
    log is non-empty, appending messages (a later question of the user
    included) leaves its prompt unchanged. *)
Theorem router_prompt_first_message_only (st : State) (later : list message) :
  messages st <> [] ->
  query_router_prompt_messages (apply_patch st (msgs_patch later))
  = query_router_prompt_messages st
  /\ exists m, query_router_prompt_messages st = Ok [m] /\ head (messages st) = Some m.
Proof.
  intros Hne. unfold query_router_prompt_messages. simpl.
  destruct (messages st) as [|m ms]; [contradiction|].
  split; [reflexivity|]. exists m. split; reflexivity.
Qed.

(** *** The service's content helpers *)

Lemma drop_tool_use_spec (items r : list content_item) :
  drop_tool_use items = inl r ->
  collect_text r = collect_text items
  /\ Forall (fun it => forall d, it = CDict d -> dict_get "type" d <> Some (JStr "tool_use")) r.
Proof.
  revert r. induction items as [|[s|d] items IH]; intros r H; simpl in H.
  - injection H as <-. split; [reflexivity | constructor].
  - destruct (drop_tool_use items) as [r'|e] eqn:E; [|discriminate].
    injection H as <-. destruct (IH r' eq_refl) as [IHc IHf].
    split; [simpl; rewrite IHc; reflexivity|].
    constructor; [intros d Hd; discriminate | exact IHf].
  - destruct (dict_get "type" d) as [ty|] eqn:Ht; [|discriminate].
    case_bool_decide as Hty.
    + destruct (drop_tool_use items) as [r'|e] eqn:E; [|discriminate].
      injection H as <-. destruct (IH r' eq_refl) as [IHc IHf].
      split.
      * simpl. rewrite Ht, IHc. reflexivity.
      * constructor; [|exact IHf]. intros d' [= <-]. rewrite Ht. intros [= ->]. apply Hty. reflexivity.
    + destruct (IH r H) as [IHc IHf]. split; [|exact IHf].
      rewrite IHc. simpl. rewrite Ht.
      destruct (decide (ty = JStr "tool_use")) as [->|Hn]; [|contradiction].
      case_bool_decide as Htt; [discriminate | reflexivity].
Qed.

(** X13: [remove_tool_calls] drops only the tool-use parts: when it
    succeeds, what [convert_message_content_to_string] makes of the
    content is unchanged (errors included), and no part left is a dict
    of type [tool_use]. *)
Theorem remove_tool_calls_keeps_text (c c' : msg_content) :
  remove_tool_calls c = inl c' ->
  convert_message_content_to_string c' = convert_message_content_to_string c
  /\ (forall items d, c' = CList items -> CDict d ∈ items ->
        dict_get "type" d <> Some (JStr "tool_use")).
Proof.
  destruct c as [s|items]; simpl; intros H.
  - injection H as <-. split; [reflexivity|]. intros ? ? [=].
  - destruct (drop_tool_use items) as [r|e] eqn:E; [|discriminate].
    injection H as <-. destruct (drop_tool_use_spec _ _ E) as [Hc Hf].
    split; [simpl; rewrite Hc; reflexivity|].
    intros items' d [= <-] Hin. rewrite Forall_forall in Hf. exact (Hf _ Hin d eq_refl).
Qed.

(* ------------------------------------------------------------------ *)
(** ** Witnesses of the further properties *)

Lemma get_schema_tool_strips_comment_block_witness :
  has_pair "/"%char "*"%char po_create = false
  /\ has_pair "*"%char "/"%char po_sample_rows = false
  /\ get_schema_tool "purchase_orders" (po_create +:+ "/*" +:+ po_sample_rows +:+ "*/" +:+ "")
     = "Selected Table " +:+ "purchase_orders" +:+ nl +:+ nl +:+ "Schema: " +:+ po_create
       +:+ strip_block_comments "".
Proof.
  assert (H1 : has_pair "/"%char "*"%char po_create = false) by reflexivity.
  assert (H2 : has_pair "*"%char "/"%char po_sample_rows = false) by reflexivity.
  split; [exact H1|]. split; [exact H2|].
  exact (proj1 (get_schema_tool_strips_comment_block "purchase_orders" po_create po_sample_rows
                  "" "" H1 H2)).
Defined.

Lemma strip_block_comments_keeps_uncommented_witness :
  has_pair "/"%char "*"%char po_create = false
  /\ strip_block_comments po_create = po_create
  /\ has_pair "*"%char "/"%char po_sample_rows = false
  /\ strip_block_comments (po_create +:+ "/*" +:+ po_sample_rows)
     = po_create +:+ "/*" +:+ po_sample_rows.
Proof.
  assert (H1 : has_pair "/"%char "*"%char po_create = false) by reflexivity.
  assert (H2 : has_pair "*"%char "/"%char po_sample_rows = false) by reflexivity.
  destruct (strip_block_comments_keeps_uncommented po_create po_create po_sample_rows) as [A B].
  split; [exact H1|]. split; [exact (A (or_introl H1))|]. split; [exact H2|].
  exact (B H1 H2).
Defined.

Lemma get_context_collects_chosen_witness :
  [cached_doc; supplier_doc] <> []
  /\ Forall2 (fun id c => build_id_to_context [cached_doc; supplier_doc] !! id = Some c)
             [9%Z; 7%Z] [doc_context supplier_doc; doc_context cached_doc]
  /\ step (IContext [cached_doc; supplier_doc] [9%Z; 7%Z])
          (Node.get_context, initial_state po_question)
     = Some (Ok (Node.query_gen_with_context,
                 apply_patch (initial_state po_question)
                   (mkPatch [AIMessage ("Retrieved Context: "
                                        +:+ foldr (fun c r => c +:+ nl +:+ nl +:+ r) ""
                                              [doc_context supplier_doc; doc_context cached_doc]) []]
                            None (Some (foldr (fun c r => c +:+ nl +:+ nl +:+ r) ""
                                              [doc_context supplier_doc; doc_context cached_doc]))
                            None None None None))).
Proof.
  assert (H1 : [cached_doc; supplier_doc] <> []) by discriminate.
  assert (H2 : Forall2 (fun id c => build_id_to_context [cached_doc; supplier_doc] !! id = Some c)
                       [9%Z; 7%Z] [doc_context supplier_doc; doc_context cached_doc]).
  { constructor; [reflexivity|]. constructor; [reflexivity|]. constructor. }
  split; [exact H1|]. split; [exact H2|].
  exact (get_context_collects_chosen (initial_state po_question) _ _ _ H1 H2).
Defined.

Lemma execution_round_routes_witness :
  (0 <= max_retries before_execution)%Z
  /\ exists st',
       run [INone; IDb scenario_b_db] (Node.get_query_execution, before_execution)
       = Some (Ok (Node.query_gen, st'))
       /\ query_gen_prompt_messages st'
          = [HumanMessage po_question; AIMessage (doc_context cached_doc) [];
             ToolMessage (query_failed_banner +:+ ("Error: " +:+ unknown_column)) "query_execution"].
Proof.
  assert (H : (0 <= max_retries before_execution)%Z) by (simpl; lia).
  split; [exact H|].
  destruct (execution_round_routes before_execution scenario_b_db H) as [st' [E [_ [_ P]]]].
  exists st'. split; [exact E|]. apply P. reflexivity.
Defined.

Lemma retry_budget_fixed_failed_unreachable_witness :
  exists c, run_trace scenario_c (Node.START, initial_state po_question) !! 8 = Some c
    /\ fst c = Node.query_execute
    /\ max_retries (snd c) = 1%Z
    /\ (forall i st', step i c <> Some (Ok (Node.END, st'))).
Proof.
  eexists. split; [vm_compute; reflexivity|].
  destruct (retry_budget_fixed_failed_unreachable scenario_c (initial_state po_question)) as [A B].
  split; [reflexivity|]. split; [reflexivity|].
  intros i st'. apply B.
  - apply list_elem_of_lookup_2 with 8. vm_compute. reflexivity.
  - reflexivity.
Defined.

Lemma router_prompt_first_message_only_witness :
  messages (initial_state po_question) <> []
  /\ query_router_prompt_messages
       (apply_patch (initial_state po_question)
          (msgs_patch [AIMessage "There were 42 purchase orders in 2023." [];
                       HumanMessage "Plot them by month"]))
     = Ok [HumanMessage po_question].
Proof.
  assert (H : messages (initial_state po_question) <> []) by (simpl; discriminate).
  split; [exact H|].
  destruct (router_prompt_first_message_only (initial_state po_question)
              [AIMessage "There were 42 purchase orders in 2023." [];
               HumanMessage "Plot them by month"] H) as [E _].
  rewrite E. reflexivity.
Defined.

Lemma remove_tool_calls_keeps_text_witness :
  remove_tool_calls (CList streamed_parts)
  = inl (CList [CDict [("type", JStr "text"); ("text", JStr "Counting orders")]; CStr " in 2023"])
  /\ convert_message_content_to_string
       (CList [CDict [("type", JStr "text"); ("text", JStr "Counting orders")]; CStr " in 2023"])
     = convert_message_content_to_string (CList streamed_parts)
  /\ convert_message_content_to_string (CList streamed_parts) = inl "Counting orders in 2023".
Proof.
  assert (H : remove_tool_calls (CList streamed_parts)
              = inl (CList [CDict [("type", JStr "text"); ("text", JStr "Counting orders")];
                            CStr " in 2023"])) by reflexivity.
  split; [exact H|]. split; [exact (proj1 (remove_tool_calls_keeps_text _ _ H)) | reflexivity].
Defined.
